(** * ShakeToFindCursor: the shake detector, the cursor scaler and the
      enlargement state of [src/main.cpp], embedded as Rocq functions.

    Conventions of the embedding.
    - [int] and [LONG] are 32-bit signed: values are [Z], and every operation
      the source performs in that type is followed by [int32].
    - [double] is IEEE 754 binary64: the kernel's primitive [float].
    - A [time_point] of [std::chrono::high_resolution_clock] is its tick count
      ([Z]); the clock counts nanoseconds, and
      [duration_cast<milliseconds>] truncates toward zero. Tick counts, their
      differences and the [long long] millisecond counts stay far inside 64
      bits and are not reduced.
    - Handles ([HCURSOR], [HBITMAP], [HDC]) are [Z]; [nullptr] is [0].
    - The calls into the operating system are answered by a record of
      answers, and the calls a function makes are returned as a trace. *)

From Stdlib Require Import ZArith List Bool Lia.
From Stdlib Require Import Floats Uint63.
Import ListNotations.

Local Open Scope Z_scope.

(** ** Machine arithmetic *)

(** Two's complement reduction of [x] to [w] bits, signed. *)
Definition wrap_signed (w : Z) (x : Z) : Z :=
  (x + 2 ^ (w - 1)) mod 2 ^ w - 2 ^ (w - 1).

Definition int32 (x : Z) : Z := wrap_signed 32 x.

(** [int] or [long long] to [double]: exact below 2^53, rounded to nearest
    above (the argument is within 63 bits). *)
Definition double_of_Z (z : Z) : float :=
  match z with
  | Z0 => PrimFloat.zero
  | Zpos _ => PrimFloat.of_uint63 (Uint63.of_Z z)
  | Zneg p => PrimFloat.opp (PrimFloat.of_uint63 (Uint63.of_Z (Zpos p)))
  end.

(** The integer part of a [double], toward zero; nothing for NaN and the
    infinities. *)
Definition trunc_double (f : float) : option Z :=
  match Prim2SF f with
  | S754_zero _ => Some 0
  | S754_finite s m e =>
      let mag := Z.shiftl (Zpos m) e in
      Some (if s then - mag else mag)
  | S754_infinity _ => None
  | S754_nan => None
  end.

(** [static_cast<int>(double)]: truncation; outside the range of [int] the
    conversion instruction yields [INT_MIN]. *)
Definition static_cast_int (f : float) : Z :=
  match trunc_double f with
  | Some z => if (- 2 ^ 31 <=? z) && (z <? 2 ^ 31) then z else - 2 ^ 31
  | None => - 2 ^ 31
  end.

(** [static_cast<DWORD>(double)]: truncation, through a 64-bit conversion
    whose low 32 bits are kept. *)
Definition static_cast_DWORD (f : float) : Z :=
  match trunc_double f with
  | Some z => if (- 2 ^ 63 <=? z) && (z <? 2 ^ 63) then z mod 2 ^ 32 else 0
  | None => 0
  end.

(** [std::round]: to the nearest integer, halves away from zero. It is not
    used by the program; the specification's hotspot formula is written
    with it. *)
Definition round_double (f : float) : option Z :=
  match Prim2SF f with
  | S754_zero _ => Some 0
  | S754_finite s m e =>
      let mag := if 0 <=? e then Zpos m * 2 ^ e
                 else (2 * Zpos m + 2 ^ (- e)) / 2 ^ (1 - e) in
      Some (if s then - mag else mag)
  | S754_infinity _ => None
  | S754_nan => None
  end.

(** ** Time *)

Definition time_point := Z.

Definition ticks_per_ms : Z := 1000000.

(** [duration_cast<std::chrono::milliseconds>(d).count()] *)
Definition duration_cast_ms (d : Z) : Z := Z.quot d ticks_per_ms.

(** ** Configuration *)

Module CursorConfig.
Definition kScaleFactor : float := 3%float.
Definition kHistorySize : nat := 10.
Definition kMinDirectionChanges : Z := 5.
Definition kMinMovementSpeed : float := 800%float.
Definition kMaxTimeWindow : Z := 500.
Definition kEnlargeDurationMs : Z := 500.
End CursorConfig.

(** ** MouseMoveDetector *)

Record POINT := mkPOINT { pt_x : Z; pt_y : Z }.

Record Movement := mkMovement { dx : Z; dy : Z; dt : Z }.

Record MouseMoveDetector := mkDetector {
  last_pos_ : POINT;
  last_time_ : time_point;
  movement_history_ : list Movement
}.

(** The constructor: the current position and time, an empty history. *)
Definition MouseMoveDetector_new (pos : POINT) (now : time_point)
  : MouseMoveDetector :=
  mkDetector pos now [].

(** [(v > 0) ? 1 : (v < 0) ? -1 : 0] *)
Definition direction (v : Z) : Z :=
  if 0 <? v then 1 else if v <? 0 then -1 else 0.

(** The test guarding each [direction_changes++]. *)
Definition is_change (last_dir curr_dir : Z) : bool :=
  negb (last_dir =? 0) && negb (curr_dir =? 0) && negb (last_dir =? curr_dir).

(** [std::sqrt(mov.dx * mov.dx + mov.dy * mov.dy)]: the sum is an [int]. *)
Definition distance (mov : Movement) : float :=
  PrimFloat.sqrt
    (double_of_Z (int32 (int32 (dx mov * dx mov) + int32 (dy mov * dy mov)))).

(** [(mov.dt > 0) ? (distance / mov.dt) * 1000.0 : 0] *)
Definition speed (mov : Movement) : float :=
  if 0 <? dt mov
  then PrimFloat.mul (PrimFloat.div (distance mov) (double_of_Z (dt mov)))
                     1000%float
  else PrimFloat.zero.

(** The local variables of [DetectShakePattern]'s loop. [direction_changes]
    grows by at most two and [total_time] by one [dt] per element of a deque
    of ten, so neither is reduced. *)
Record ShakeAcc := mkAcc {
  direction_changes : Z;
  total_speed : float;
  total_time : Z;
  last_x_dir : Z;
  last_y_dir : Z
}.

Definition acc_init : ShakeAcc := mkAcc 0 PrimFloat.zero 0 0 0.

(** One iteration of the loop over [movement_history_]. *)
Definition shake_step (a : ShakeAcc) (mov : Movement) : ShakeAcc :=
  let curr_x_dir := direction (dx mov) in
  let curr_y_dir := direction (dy mov) in
  let c1 := if is_change (last_x_dir a) curr_x_dir
            then direction_changes a + 1 else direction_changes a in
  let c2 := if is_change (last_y_dir a) curr_y_dir then c1 + 1 else c1 in
  mkAcc c2
        (PrimFloat.add (total_speed a) (speed mov))
        (total_time a + dt mov)
        curr_x_dir
        curr_y_dir.

Definition shake_loop (h : list Movement) : ShakeAcc :=
  fold_left shake_step h acc_init.

(** [total_speed / movement_history_.size()] *)
Definition avg_speed (h : list Movement) : float :=
  PrimFloat.div (total_speed (shake_loop h))
                (double_of_Z (Z.of_nat (length h))).

Definition DetectShakePattern (h : list Movement) : bool :=
  if (length h <? CursorConfig.kHistorySize)%nat then false
  else
    let a := shake_loop h in
    if CursorConfig.kMaxTimeWindow <? total_time a then false
    else (CursorConfig.kMinDirectionChanges <=? direction_changes a)
         && PrimFloat.leb CursorConfig.kMinMovementSpeed (avg_speed h).

(** [push_back] then, above [kHistorySize], [pop_front]. *)
Definition push_history (h : list Movement) (mov : Movement)
  : list Movement :=
  let h' := h ++ [mov] in
  if (CursorConfig.kHistorySize <? length h')%nat then tl h' else h'.

(** [ShouldEnlargeCursor(current_pos)] with the clock reading [now]: the
    answer and the detector afterwards. *)
Definition ShouldEnlargeCursor (now : time_point) (current_pos : POINT)
    (d : MouseMoveDetector) : bool * MouseMoveDetector :=
  let delta_time := duration_cast_ms (now - last_time_ d) in
  if delta_time <=? 0 then (false, d)
  else
    let dx := int32 (pt_x current_pos - pt_x (last_pos_ d)) in
    let dy := int32 (pt_y current_pos - pt_y (last_pos_ d)) in
    let h := push_history (movement_history_ d) (mkMovement dx dy delta_time) in
    (DetectShakePattern h, mkDetector current_pos now h).

(** A run of calls, oldest first: the detector after them. *)
Definition observe_all (d : MouseMoveDetector)
    (calls : list (time_point * POINT)) : MouseMoveDetector :=
  fold_left (fun d c => snd (ShouldEnlargeCursor (fst c) (snd c) d)) calls d.

(** The samples a run appends to the history (those with [delta_time > 0]),
    oldest first. *)
Fixpoint accepted (d : MouseMoveDetector) (calls : list (time_point * POINT))
  : list Movement :=
  match calls with
  | [] => []
  | c :: rest =>
      let d' := snd (ShouldEnlargeCursor (fst c) (snd c) d) in
      let delta_time := duration_cast_ms (fst c - last_time_ d) in
      if delta_time <=? 0 then accepted d' rest
      else mkMovement (int32 (pt_x (snd c) - pt_x (last_pos_ d)))
                      (int32 (pt_y (snd c) - pt_y (last_pos_ d)))
                      delta_time
           :: accepted d' rest
  end.

(** Scenario A of the specification: from rest at the origin, one sample every
    40 ms, alternating between x = 50 and x = 0. *)
Definition ms (n : Z) : time_point := n * ticks_per_ms.

Definition scenario_A : list (time_point * POINT) :=
  map (fun k => (ms (40 * Z.of_nat k),
                 mkPOINT (if Nat.odd k then 50 else 0) 0))
      (seq 1 10).

Definition detector_0 : MouseMoveDetector :=
  MouseMoveDetector_new (mkPOINT 0 0) 0.

(** ** The operating system *)

Definition HCURSOR := Z.
Definition HBITMAP := Z.
Definition HDC := Z.
Definition nullptr : Z := 0.

Definition OCR_NORMAL : Z := 32512.
Definition IDC_ARROW : Z := 32512.

Record ICONINFO := mkICONINFO {
  fIcon : bool;
  xHotspot : Z;
  yHotspot : Z;
  hbmMask : HBITMAP;
  hbmColor : HBITMAP
}.

Record BITMAP := mkBITMAP { bmWidth : Z; bmHeight : Z }.

(** The calls the program makes, with their arguments. *)
Inductive HostCall : Type :=
| call_LoadCursor (id : Z)
| call_CopyCursor (c : HCURSOR)
| call_SetSystemCursor (c : HCURSOR) (id : Z)
| call_DestroyCursor (c : HCURSOR)
| call_GetIconInfo (c : HCURSOR)
| call_GetObject (b : HBITMAP)
| call_GetDC
| call_CreateCompatibleDC (dc : HDC)
| call_CreateDIBSection (dc : HDC) (width height bit_count : Z)
| call_CreateBitmap (width height : Z)
| call_SelectObject (dc : HDC) (b : HBITMAP)
| call_SetStretchBltMode_HALFTONE (dc : HDC)
| call_SetBrushOrgEx (dc : HDC)
| call_StretchBlt (dst : HDC) (dst_width dst_height : Z)
                  (src : HDC) (src_width src_height : Z)
| call_CreateIconIndirect (info : ICONINFO)
| call_DeleteObject (b : HBITMAP)
| call_DeleteDC (dc : HDC)
| call_ReleaseDC (dc : HDC).

(** What the operating system answers during one call of the program. A
    handle of [0] and a [false] are its failures. *)
Record Host := mkHost {
  LoadCursor : Z -> HCURSOR;
  CopyCursor : HCURSOR -> HCURSOR;
  SetSystemCursor : HCURSOR -> Z -> bool;
  GetIconInfo : HCURSOR -> option ICONINFO;
  GetObject : HBITMAP -> option BITMAP;
  GetDC : HDC;
  CreateCompatibleDC_src : HDC;
  CreateCompatibleDC_dst : HDC;
  CreateDIBSection : Z -> Z -> HBITMAP;
  CreateBitmap : Z -> Z -> HBITMAP;
  (** the bitmaps the first [SelectObject] on each DC replaces *)
  SelectObject_src : HBITMAP;
  SelectObject_dst : HBITMAP;
  CreateIconIndirect : ICONINFO -> HCURSOR
}.

Definition is_null (h : Z) : bool := h =? nullptr.

(** [if (h) call] *)
Definition when_set (h : Z) (calls : list HostCall) : list HostCall :=
  if is_null h then [] else calls.

(** ** CursorUtils::ScaleCursor *)

Module CursorUtils.

(** The body of the [do { ... } while (false)]: the new cursor, the two
    bitmaps as they stand when the block is left, and the calls made. *)
Definition scale_block (host : Host) (icon_info : ICONINFO) (bm : BITMAP)
    (scale_factor : float) (new_width new_height : Z)
    (screen_dc src_dc dst_dc : HDC)
  : HCURSOR * HBITMAP * HBITMAP * list HostCall :=
  let new_color := CreateDIBSection host new_width new_height in
  let t1 := [call_CreateDIBSection screen_dc new_width new_height 32] in
  if is_null new_color then (nullptr, new_color, nullptr, t1)
  else
    let new_mask := CreateBitmap host new_width new_height in
    let t2 := t1 ++ [call_CreateBitmap new_width new_height] in
    if is_null new_mask then (nullptr, new_color, new_mask, t2)
    else
      let src_bitmap := if is_null (hbmColor icon_info)
                        then hbmMask icon_info else hbmColor icon_info in
      let old_src_color := SelectObject_src host in
      let old_dst_color := SelectObject_dst host in
      let t3 :=
        t2 ++ [call_SelectObject src_dc src_bitmap;
               call_SelectObject dst_dc new_color;
               call_SetStretchBltMode_HALFTONE dst_dc;
               call_SetBrushOrgEx dst_dc;
               call_StretchBlt dst_dc new_width new_height
                               src_dc (bmWidth bm) (bmHeight bm)] in
      let t4 :=
        t3 ++ when_set (hbmColor icon_info)
                [call_SelectObject src_dc (hbmMask icon_info);
                 call_SelectObject dst_dc new_mask;
                 call_StretchBlt dst_dc new_width new_height
                                 src_dc (bmWidth bm) (bmHeight bm)] in
      let t5 := t4 ++ [call_SelectObject src_dc old_src_color;
                       call_SelectObject dst_dc old_dst_color] in
      let new_icon_info :=
        mkICONINFO false
          (static_cast_DWORD
             (PrimFloat.mul (double_of_Z (xHotspot icon_info)) scale_factor))
          (static_cast_DWORD
             (PrimFloat.mul (double_of_Z (yHotspot icon_info)) scale_factor))
          new_mask new_color in
      (CreateIconIndirect host new_icon_info, new_color, new_mask,
       t5 ++ [call_CreateIconIndirect new_icon_info]).

(** [ScaleCursor(src_cursor, scale_factor)]: the cursor returned
    ([nullptr] on failure) and the calls made, in order. *)
Definition ScaleCursor (host : Host) (src_cursor : HCURSOR)
    (scale_factor : float) : HCURSOR * list HostCall :=
  if is_null src_cursor || PrimFloat.leb scale_factor PrimFloat.zero
  then (nullptr, [])
  else
    let t0 := [call_GetIconInfo src_cursor] in
    match GetIconInfo host src_cursor with
    | None => (nullptr, t0)
    | Some icon_info =>
        (* the two unique_ptr release the source bitmaps on every path
           below, the one declared last first *)
        let release :=
          when_set (hbmMask icon_info) [call_DeleteObject (hbmMask icon_info)]
          ++ when_set (hbmColor icon_info)
               [call_DeleteObject (hbmColor icon_info)] in
        let src_bitmap := if is_null (hbmColor icon_info)
                          then hbmMask icon_info else hbmColor icon_info in
        let t1 := t0 ++ [call_GetObject src_bitmap] in
        match GetObject host src_bitmap with
        | None => (nullptr, t1 ++ release)
        | Some bm =>
            let new_width :=
              static_cast_int
                (PrimFloat.mul (double_of_Z (bmWidth bm)) scale_factor) in
            let new_height :=
              static_cast_int
                (PrimFloat.mul (double_of_Z (bmHeight bm)) scale_factor) in
            let screen_dc := GetDC host in
            let t2 := t1 ++ [call_GetDC] in
            if is_null screen_dc then (nullptr, t2 ++ release)
            else
              let src_dc := CreateCompatibleDC_src host in
              let dst_dc := CreateCompatibleDC_dst host in
              let t3 := t2 ++ [call_CreateCompatibleDC screen_dc;
                               call_CreateCompatibleDC screen_dc] in
              if is_null src_dc || is_null dst_dc
              then (nullptr,
                    t3 ++ when_set src_dc [call_DeleteDC src_dc]
                       ++ when_set dst_dc [call_DeleteDC dst_dc]
                       ++ [call_ReleaseDC screen_dc] ++ release)
              else
                let '(new_cursor, new_color, new_mask, t4) :=
                  scale_block host icon_info bm scale_factor
                              new_width new_height screen_dc src_dc dst_dc in
                (new_cursor,
                 t3 ++ t4
                    ++ when_set new_color [call_DeleteObject new_color]
                    ++ when_set new_mask [call_DeleteObject new_mask]
                    ++ [call_DeleteDC src_dc; call_DeleteDC dst_dc;
                        call_ReleaseDC screen_dc]
                    ++ release)
        end
    end.

End CursorUtils.

(** The description handed to the [CreateIconIndirect] of a trace, if the
    trace reaches one: the image a successful [ScaleCursor] was built from. *)
Fixpoint built_icon_info (calls : list HostCall) : option ICONINFO :=
  match calls with
  | [] => None
  | call_CreateIconIndirect info :: _ => Some info
  | _ :: rest => built_icon_info rest
  end.

(** ** CursorState *)

Record CursorState := mkCursorState {
  original_cursor_ : HCURSOR;
  large_cursor_ : HCURSOR;
  is_enlarged_ : bool;
  enlarge_start_time_ : time_point
}.

(** The constructor: it throws when the arrow cannot be copied or scaled.
    The start time is default-constructed (the clock's epoch). *)
Inductive runtime_error : Type :=
| Failed_to_backup_original_cursor
| Failed_to_create_large_cursor.

Definition CursorState_new (host : Host)
  : (runtime_error + CursorState) * list HostCall :=
  let arrow := LoadCursor host IDC_ARROW in
  let original := CopyCursor host arrow in
  let t0 := [call_LoadCursor IDC_ARROW; call_CopyCursor arrow] in
  if is_null original then (inl Failed_to_backup_original_cursor, t0)
  else
    let '(large, t1) :=
      CursorUtils.ScaleCursor host original CursorConfig.kScaleFactor in
    if is_null large then (inl Failed_to_create_large_cursor, t0 ++ t1)
    else (inr (mkCursorState original large false 0), t0 ++ t1).

(** [Enlarge()]; [now] is the clock reading taken when the install
    succeeded. *)
Definition Enlarge (host : Host) (now : time_point) (s : CursorState)
  : CursorState * list HostCall :=
  if negb (is_enlarged_ s) then
    let cursor_copy := CopyCursor host (large_cursor_ s) in
    let t0 := [call_CopyCursor (large_cursor_ s)] in
    if is_null cursor_copy then (s, t0)
    else
      let t1 := t0 ++ [call_SetSystemCursor cursor_copy OCR_NORMAL] in
      if SetSystemCursor host cursor_copy OCR_NORMAL
      then (mkCursorState (original_cursor_ s) (large_cursor_ s) true now, t1)
      else (s, t1 ++ [call_DestroyCursor cursor_copy])
  else (s, []).

Definition RestoreOriginalCursor (host : Host) (s : CursorState)
  : CursorState * list HostCall :=
  if is_enlarged_ s then
    let cursor_copy := CopyCursor host (original_cursor_ s) in
    let t0 := [call_CopyCursor (original_cursor_ s)] in
    if is_null cursor_copy then (s, t0)
    else
      let t1 := t0 ++ [call_SetSystemCursor cursor_copy OCR_NORMAL] in
      if SetSystemCursor host cursor_copy OCR_NORMAL
      then (mkCursorState (original_cursor_ s) (large_cursor_ s) false
                          (enlarge_start_time_ s), t1)
      else (s, t1 ++ [call_DestroyCursor cursor_copy])
  else (s, []).

(** [RestoreIfNeeded()] with the clock reading [now]. *)
Definition RestoreIfNeeded (host : Host) (now : time_point) (s : CursorState)
  : CursorState * list HostCall :=
  if is_enlarged_ s then
    let elapsed := duration_cast_ms (now - enlarge_start_time_ s) in
    if CursorConfig.kEnlargeDurationMs <? elapsed
    then RestoreOriginalCursor host s
    else (s, [])
  else (s, []).

(** The commands of a trace that install a cursor for the system arrow. *)
Definition is_SetSystemCursor (c : HostCall) : bool :=
  match c with
  | call_SetSystemCursor _ _ => true
  | _ => false
  end.

Definition count_SetSystemCursor (calls : list HostCall) : nat :=
  length (filter is_SetSystemCursor calls).

(** ** ShakeToFindCursor: the detector and the cursor state together *)

Record ShakeToFindCursor := mkApp {
  cursor_state_ : CursorState;
  move_detector_ : MouseMoveDetector
}.

(** [ProcessMouseMove]: [now] is read by the detector, [now'] by
    [Enlarge]. *)
Definition ProcessMouseMove (host : Host) (now now' : time_point)
    (pt : POINT) (app : ShakeToFindCursor)
  : ShakeToFindCursor * list HostCall :=
  let '(shake, d) := ShouldEnlargeCursor now pt (move_detector_ app) in
  if shake then
    let '(s, t) := Enlarge host now' (cursor_state_ app) in
    (mkApp s d, t)
  else (mkApp (cursor_state_ app) d, []).

(** ** The specification's wording, for comparison with the code *)

(** Spec 4.1: a change is counted between two consecutive non-zero directions
    of different sign, and a zero direction is skipped without touching the
    remembered one. [last] is the remembered non-zero direction, [0] before
    the first. *)
Fixpoint spec_axis_changes (last : Z) (dirs : list Z) : Z :=
  match dirs with
  | [] => 0
  | d :: rest =>
      if d =? 0 then spec_axis_changes last rest
      else (if is_change last d then 1 else 0) + spec_axis_changes d rest
  end.

Definition spec_direction_changes (h : list Movement) : Z :=
  spec_axis_changes 0 (map (fun m => direction (dx m)) h)
  + spec_axis_changes 0 (map (fun m => direction (dy m)) h).

(** The claim that every shrink of the pointer happens as soon as the dwell
    is exceeded, whatever the host answers. *)
Definition spec_tick_restores (host : Host) (now : time_point)
    (s : CursorState) : Prop :=
  500 * ticks_per_ms < now - enlarge_start_time_ s ->
  is_enlarged_ (fst (RestoreIfNeeded host now s)) = false
  /\ count_SetSystemCursor (snd (RestoreIfNeeded host now s)) = 1%nat.

(** Spec 4.2, step 3: the hotspot is rounded. *)
Definition spec_hotspot (x y : Z) (factor : float) : option (Z * Z) :=
  match round_double (PrimFloat.mul (double_of_Z x) factor),
        round_double (PrimFloat.mul (double_of_Z y) factor) with
  | Some x', Some y' => Some (x', y')
  | _, _ => None
  end.

(** The directions of a window on each axis. *)
Definition x_dirs (h : list Movement) : list Z :=
  map (fun m => direction (dx m)) h.

Definition y_dirs (h : list Movement) : list Z :=
  map (fun m => direction (dy m)) h.

(** Each direction paired with the one just after it. *)
Definition adjacent_pairs (dirs : list Z) : list (Z * Z) :=
  combine dirs (tl dirs).

(** The pairs of neighbours that are both non-zero and differ. *)
Definition adjacent_changes (dirs : list Z) : Z :=
  Z.of_nat
    (length (filter (fun p => is_change (fst p) (snd p))
                    (adjacent_pairs dirs))).

(** The shake predicate over a window, as the specification lists it. *)
Definition shake_predicate (h : list Movement) : Prop :=
  total_time (shake_loop h) <= 500
  /\ 5 <= direction_changes (shake_loop h)
  /\ PrimFloat.leb 800%float (avg_speed h) = true.

(** The last [n] elements of a list. *)
Definition lastn {A : Type} (n : nat) (l : list A) : list A :=
  skipn (length l - n) l.

(** ** Concrete inputs *)

(** A host on which every call succeeds; the arrow is 32 by 32 with its
    hotspot at (1, 1). *)
Definition host_ok : Host :=
  mkHost (fun _ => 100) (fun c => c + 1) (fun _ _ => true)
         (fun _ => Some (mkICONINFO false 1 1 11 12))
         (fun _ => Some (mkBITMAP 32 32))
         20 21 22
         (fun _ _ => 31) (fun _ _ => 32)
         41 42
         (fun _ => 50).

(** The same host, declining every [SetSystemCursor]. *)
Definition host_declines : Host :=
  mkHost (LoadCursor host_ok) (CopyCursor host_ok) (fun _ _ => false)
         (GetIconInfo host_ok) (GetObject host_ok)
         (GetDC host_ok) (CreateCompatibleDC_src host_ok)
         (CreateCompatibleDC_dst host_ok)
         (CreateDIBSection host_ok) (CreateBitmap host_ok)
         (SelectObject_src host_ok) (SelectObject_dst host_ok)
         (CreateIconIndirect host_ok).

(** Enlarged since tick [T]. *)
Definition enlarged_at (T : time_point) : CursorState :=
  mkCursorState 101 50 true T.

(** Whether the host lets [RestoreOriginalCursor] through: the copy exists
    and the install is accepted. *)
Definition restore_accepted (host : Host) (s : CursorState) : bool :=
  negb (is_null (CopyCursor host (original_cursor_ s)))
  && SetSystemCursor host (CopyCursor host (original_cursor_ s)) OCR_NORMAL.

(** The window [+5, 0, -5] on the x axis. *)
Definition window_with_pause : list Movement :=
  [mkMovement 5 0 1; mkMovement 0 0 1; mkMovement (-5) 0 1].

(** ** Windows and runs, for the further properties *)

(** A window seen in a mirror, and with its axes exchanged. *)
Definition mirror_x (m : Movement) : Movement :=
  mkMovement (- dx m) (dy m) (dt m).

Definition mirror_y (m : Movement) : Movement :=
  mkMovement (dx m) (- dy m) (dt m).

Definition swap_axes (m : Movement) : Movement :=
  mkMovement (dy m) (dx m) (dt m).

Definition sum_Z (l : list Z) : Z := fold_right Z.add 0 l.

(** The answers of a run of calls, oldest first. *)
Fixpoint answers (d : MouseMoveDetector) (calls : list (time_point * POINT))
  : list bool :=
  match calls with
  | [] => []
  | c :: rest =>
      fst (ShouldEnlargeCursor (fst c) (snd c) d)
      :: answers (snd (ShouldEnlargeCursor (fst c) (snd c) d)) rest
  end.

(** The same scene with another origin of the screen and of the clock. *)
Definition translate (cx cy : Z) (p : POINT) : POINT :=
  mkPOINT (pt_x p + cx) (pt_y p + cy).

Definition shift_detector (cx cy ct : Z) (d : MouseMoveDetector)
  : MouseMoveDetector :=
  mkDetector (translate cx cy (last_pos_ d)) (last_time_ d + ct)
             (movement_history_ d).

Definition shift_call (cx cy ct : Z) (c : time_point * POINT)
  : time_point * POINT :=
  (fst c + ct, translate cx cy (snd c)).

(** Coordinates far enough from the ends of [LONG] for their differences
    to be exact. *)
Definition on_screen (p : POINT) : Prop :=
  - 2 ^ 30 <= pt_x p < 2 ^ 30 /\ - 2 ^ 30 <= pt_y p < 2 ^ 30.

(** The three sums of the loop agree. *)
Definition same_totals (a a' : ShakeAcc) : Prop :=
  direction_changes a' = direction_changes a
  /\ total_speed a' = total_speed a
  /\ total_time a' = total_time a.

(** Every call comes at least [gap] ticks after the one before it, the
    first one after [t]. *)
Fixpoint spaced_by (gap : Z) (t : time_point)
    (calls : list (time_point * POINT)) : Prop :=
  match calls with
  | [] => True
  | c :: rest => t + gap <= fst c /\ spaced_by gap (fst c) rest
  end.

(** ** The window, the hook and the tray icon

    [DEBUG_LOG] expands to nothing unless [_DEBUG] is defined: what follows
    is the release build. [WindowProc] is modelled for the messages that
    arrive once [Initialize] has stored the object in the window. *)

Inductive MouseTrackingMode : Type := kHook | kPolling.

Definition kTimerId : Z := 1.
Definition kTimerInterval : Z := 100.
Definition kTrayIconId : Z := 1.
Definition WM_APP : Z := 32768.
Definition kTrayIconMessage : Z := WM_APP + 1.
Definition kMenuExitId : Z := 2000.

Definition HC_ACTION : Z := 0.
Definition WM_DESTROY : Z := 2.
Definition WM_QUIT : Z := 18.
Definition WM_COMMAND : Z := 273.
Definition WM_TIMER : Z := 275.
Definition WM_MOUSEMOVE : Z := 512.
Definition WM_RBUTTONUP : Z := 517.

(** [LOWORD(v)] *)
Definition LOWORD (v : Z) : Z := v mod 2 ^ 16.

Inductive NotifyIconMessage : Type := NIM_ADD | NIM_DELETE.

(** The calls to the window manager and the shell. *)
Inductive ShellCall : Type :=
| call_GetModuleHandle
| call_LoadIcon
| call_RegisterClassExW
| call_CreateWindowW
| call_SetWindowLongPtr (hwnd : Z)
| call_SetTimer (hwnd id interval : Z)
| call_KillTimer (hwnd id : Z)
| call_DestroyWindow (hwnd : Z)
| call_SetWindowsHookEx
| call_UnhookWindowsHookEx (hook : Z)
| call_SetConsoleCtrlHandler (add : bool)
| call_Shell_NotifyIcon (message : NotifyIconMessage) (hwnd id : Z)
| call_CallNextHookEx (nCode wParam : Z)
| call_GetCursorPos
| call_PostQuitMessage (code : Z)
| call_PostMessage (hwnd msg : Z)
| call_DefWindowProc (hwnd msg : Z)
| call_CreatePopupMenu
| call_AppendMenuW (menu id : Z)
| call_SetForegroundWindow (hwnd : Z)
| call_TrackPopupMenu (menu x y hwnd : Z)
| call_DestroyMenu (menu : Z)
| call_SystemParametersInfo_SETCURSORS.

Inductive AppCall : Type :=
| cursor_call (c : HostCall)
| shell_call (c : ShellCall).

(** The answers of the window manager and the shell during one call of the
    program. *)
Record ShellHost := mkShellHost {
  GetModuleHandle : Z;
  LoadIcon : Z;
  RegisterClassExW : bool;
  CreateWindowW : Z;
  SetTimer : bool;
  SetWindowsHookEx : Z;
  Shell_NotifyIconW_add : bool;
  CallNextHookEx : Z;
  GetCursorPos : POINT;
  DefWindowProc : Z;
  CreatePopupMenu : Z;
  SystemParametersInfo_SETCURSORS : bool
}.

(** The members of [ShakeToFindCursor] beside the cursor state and the
    detector. *)
Record ShellState := mkShell {
  mouse_hook_ : Z;
  hwnd_ : Z;
  running_ : bool;
  tray_icon_added_ : bool;
  tracking_mode_ : MouseTrackingMode
}.

Record Instance := mkInstance {
  core : ShakeToFindCursor;
  shell : ShellState
}.

Definition cursor_calls (t : list HostCall) : list AppCall :=
  map cursor_call t.

Definition shell_calls (t : list ShellCall) : list AppCall :=
  map shell_call t.

Inductive init_error : Type :=
| Failed_to_register_window_class
| Failed_to_create_window
| Failed_to_create_timer
| Failed_to_install_mouse_hook
| Failed_to_create_tray_icon.

(** [Initialize(mode)]: [inr true] or the exception thrown, the members as
    they are left, and the calls made. *)
Definition Initialize (sh : ShellHost) (mode : MouseTrackingMode)
    (st : ShellState) : (init_error + bool) * ShellState * list ShellCall :=
  let st0 := mkShell (mouse_hook_ st) (hwnd_ st) (running_ st)
                     (tray_icon_added_ st) mode in
  let t0 := [call_GetModuleHandle; call_LoadIcon; call_RegisterClassExW] in
  if negb (RegisterClassExW sh)
  then (inl Failed_to_register_window_class, st0, t0)
  else
    let hwnd := CreateWindowW sh in
    let st1 := mkShell (mouse_hook_ st0) hwnd (running_ st0)
                       (tray_icon_added_ st0) mode in
    let t1 := t0 ++ [call_GetModuleHandle; call_CreateWindowW] in
    if is_null hwnd then (inl Failed_to_create_window, st1, t1)
    else
      let timer_interval :=
        match mode with kPolling => 10 | kHook => kTimerInterval end in
      let t2 := t1 ++ [call_SetWindowLongPtr hwnd;
                       call_SetTimer hwnd kTimerId timer_interval] in
      if negb (SetTimer sh)
      then (inl Failed_to_create_timer, st1, t2 ++ [call_DestroyWindow hwnd])
      else
        let hook_step :=
          match mode with
          | kHook =>
              (mkShell (SetWindowsHookEx sh) hwnd (running_ st1)
                       (tray_icon_added_ st1) mode,
               is_null (SetWindowsHookEx sh),
               [call_GetModuleHandle; call_SetWindowsHookEx])
          | kPolling => (st1, false, [])
          end in
        let '(st2, hook_failed, t_hook) := hook_step in
        let t3 := t2 ++ t_hook in
        if hook_failed
        then (inl Failed_to_install_mouse_hook, st2,
              t3 ++ [call_KillTimer hwnd kTimerId; call_DestroyWindow hwnd])
        else
          let t4 := t3 ++ [call_SetConsoleCtrlHandler true;
                           call_GetModuleHandle; call_LoadIcon;
                           call_Shell_NotifyIcon NIM_ADD hwnd kTrayIconId] in
          if negb (Shell_NotifyIconW_add sh)
          then (inl Failed_to_create_tray_icon, st2,
                t4 ++ [call_KillTimer hwnd kTimerId; call_DestroyWindow hwnd])
          else
            (inr true,
             mkShell (mouse_hook_ st2) hwnd (running_ st2) true mode, t4).

Definition RemoveTrayIcon (st : ShellState) : ShellState * list ShellCall :=
  if tray_icon_added_ st && negb (is_null (hwnd_ st))
  then (mkShell (mouse_hook_ st) (hwnd_ st) (running_ st) false
                (tracking_mode_ st),
        [call_Shell_NotifyIcon NIM_DELETE (hwnd_ st) kTrayIconId])
  else (st, []).

(** [Stop()] *)
Definition Stop (st : ShellState) : ShellState * list ShellCall :=
  (mkShell (mouse_hook_ st) (hwnd_ st) false (tray_icon_added_ st)
           (tracking_mode_ st),
   if is_null (hwnd_ st) then [] else [call_PostMessage (hwnd_ st) WM_QUIT]).

(** The body of [~ShakeToFindCursor()]. *)
Definition ShakeToFindCursor_delete (st : ShellState)
  : ShellState * list ShellCall :=
  let '(st1, t1) := RemoveTrayIcon st in
  (st1,
   t1 ++ (if is_null (mouse_hook_ st1) then []
          else [call_UnhookWindowsHookEx (mouse_hook_ st1)])
      ++ (if is_null (hwnd_ st1) then []
          else [call_KillTimer (hwnd_ st1) kTimerId;
                call_DestroyWindow (hwnd_ st1)])
      ++ [call_SetConsoleCtrlHandler false]).

(** [~CursorState()] *)
Definition CursorState_delete (sh : ShellHost) (s : CursorState)
  : CursorState * list AppCall :=
  let s1 := if SystemParametersInfo_SETCURSORS sh
            then mkCursorState (original_cursor_ s) (large_cursor_ s) false
                               (enlarge_start_time_ s)
            else s in
  (s1,
   [shell_call call_SystemParametersInfo_SETCURSORS]
   ++ cursor_calls (when_set (original_cursor_ s1)
                      [call_DestroyCursor (original_cursor_ s1)])
   ++ cursor_calls (when_set (large_cursor_ s1)
                      [call_DestroyCursor (large_cursor_ s1)])).

(** The destruction of the whole object: the destructor's body, then the
    members in the reverse of their order, of which only the cursor state
    does anything. *)
Definition Instance_delete (sh : ShellHost) (inst : Instance)
  : Instance * list AppCall :=
  let '(st, t1) := ShakeToFindCursor_delete (shell inst) in
  let '(s, t2) := CursorState_delete sh (cursor_state_ (core inst)) in
  (mkInstance (mkApp s (move_detector_ (core inst))) st,
   shell_calls t1 ++ t2).

Definition ShowContextMenu (sh : ShellHost) (hwnd : Z) : list ShellCall :=
  let pt := GetCursorPos sh in
  let menu := CreatePopupMenu sh in
  [call_GetCursorPos; call_CreatePopupMenu]
  ++ (if is_null menu then []
      else [call_AppendMenuW menu kMenuExitId;
            call_SetForegroundWindow hwnd;
            call_TrackPopupMenu menu (pt_x pt) (pt_y pt) hwnd;
            call_DestroyMenu menu]).

(** [ProcessMouseMove] on the object. *)
Definition Instance_ProcessMouseMove (host : Host) (now now' : time_point)
    (pt : POINT) (inst : Instance) : Instance * list AppCall :=
  let '(c, t) := ProcessMouseMove host now now' pt (core inst) in
  (mkInstance c (shell inst), cursor_calls t).

(** [MouseProc(nCode, wParam, lParam)], [pt] being the point [lParam]
    refers to: the result and the object afterwards. *)
Definition MouseProc (host : Host) (sh : ShellHost) (now now' : time_point)
    (nCode wParam : Z) (pt : POINT) (inst : Instance)
  : Z * Instance * list AppCall :=
  let '(inst1, t) :=
    if (nCode =? HC_ACTION) && (wParam =? WM_MOUSEMOVE)
    then Instance_ProcessMouseMove host now now' pt inst
    else (inst, []) in
  (CallNextHookEx sh, inst1,
   t ++ [shell_call (call_CallNextHookEx nCode wParam)]).

(** [WindowProc(hwnd, msg, wParam, lParam)] for the window whose user data
    is the object. The three clock readings are the ones of the detector,
    of [Enlarge] and of [RestoreIfNeeded]. *)
Definition WindowProc (host : Host) (sh : ShellHost)
    (now now' now'' : time_point) (hwnd msg wParam lParam : Z)
    (inst : Instance) : Z * Instance * list AppCall :=
  if msg =? WM_TIMER then
    if wParam =? kTimerId then
      let '(inst1, t1) :=
        match tracking_mode_ (shell inst) with
        | kPolling =>
            let '(i, t) :=
              Instance_ProcessMouseMove host now now' (GetCursorPos sh) inst in
            (i, shell_call call_GetCursorPos :: t)
        | kHook => (inst, [])
        end in
      let '(s, t2) := RestoreIfNeeded host now'' (cursor_state_ (core inst1)) in
      (0, mkInstance (mkApp s (move_detector_ (core inst1))) (shell inst1),
       t1 ++ cursor_calls t2)
    else (0, inst, [])
  else if msg =? WM_DESTROY then
    (0, inst, [shell_call (call_PostQuitMessage 0)])
  else if msg =? kTrayIconMessage then
    (0, inst,
     if LOWORD lParam =? WM_RBUTTONUP
     then shell_calls (ShowContextMenu sh hwnd) else [])
  else if msg =? WM_COMMAND then
    if LOWORD wParam =? kMenuExitId
    then let '(st, t) := Stop (shell inst) in
         (0, mkInstance (core inst) st, shell_calls t)
    else (0, inst, [])
  else (DefWindowProc sh, inst, [shell_call (call_DefWindowProc hwnd msg)]).

(** What reaches the object: a callback of the mouse hook or a message of
    the window. *)
Inductive Event : Type :=
| ev_hook (host : Host) (sh : ShellHost) (now now' : time_point)
          (nCode wParam : Z) (pt : POINT)
| ev_message (host : Host) (sh : ShellHost) (now now' now'' : time_point)
             (hwnd msg wParam lParam : Z).

Definition deliver (e : Event) (inst : Instance) : Instance * list AppCall :=
  match e with
  | ev_hook host sh now now' nCode wParam pt =>
      let '(_, i, t) := MouseProc host sh now now' nCode wParam pt inst in
      (i, t)
  | ev_message host sh now now' now'' hwnd msg wParam lParam =>
      let '(_, i, t) :=
        WindowProc host sh now now' now'' hwnd msg wParam lParam inst in
      (i, t)
  end.

Fixpoint deliver_all (events : list Event) (inst : Instance)
  : Instance * list AppCall :=
  match events with
  | [] => (inst, [])
  | e :: rest =>
      let '(i, t) := deliver e inst in
      let '(i', t') := deliver_all rest i in
      (i', t ++ t')
  end.

(** The clock reading an event hands to [RestoreIfNeeded], if it is a
    message at all. *)
Definition restore_clock (e : Event) : option time_point :=
  match e with
  | ev_hook _ _ _ _ _ _ _ => None
  | ev_message _ _ _ _ now'' _ _ _ _ => Some now''
  end.

Definition is_cursor_call (c : AppCall) : bool :=
  match c with
  | cursor_call _ => true
  | shell_call _ => false
  end.

(** The sample an event feeds to the detector, if it feeds one. *)
Definition event_sample (e : Event) (inst : Instance)
  : option (time_point * POINT) :=
  match e with
  | ev_hook _ _ now _ nCode wParam pt =>
      if (nCode =? HC_ACTION) && (wParam =? WM_MOUSEMOVE)
      then Some (now, pt) else None
  | ev_message _ sh now _ _ _ msg wParam _ =>
      if (msg =? WM_TIMER) && (wParam =? kTimerId)
      then match tracking_mode_ (shell inst) with
           | kPolling => Some (now, GetCursorPos sh)
           | kHook => None
           end
      else None
  end.

(** A window manager on which every call succeeds. *)
Definition shell_ok : ShellHost :=
  mkShellHost 1 2 true 77 true 88 true 0 (mkPOINT 50 0) 0 99 true.

(** The object after Scenario A, enlarged at 1000 ms, in each mode. *)
Definition instance_enlarged (mode : MouseTrackingMode) : Instance :=
  mkInstance (mkApp (enlarged_at (ms 1000))
                    (observe_all detector_0 scenario_A))
             (mkShell (match mode with kHook => 88 | kPolling => 0 end)
                      77 true true mode).

(** A mouse move, a timer tick at 1400 ms, a right click on the tray icon
    and a click elsewhere. *)
Definition dwell_events : list Event :=
  [ev_hook host_ok shell_ok (ms 1040) (ms 1040) HC_ACTION WM_MOUSEMOVE
           (mkPOINT 50 0);
   ev_message host_ok shell_ok (ms 1400) (ms 1400) (ms 1400) 77 WM_TIMER
              kTimerId 0;
   ev_message host_ok shell_ok 0 0 (ms 1450) 77 kTrayIconMessage 0
              WM_RBUTTONUP;
   ev_hook host_ok shell_ok (ms 1460) (ms 1460) HC_ACTION 513
           (mkPOINT 50 0)].

Definition is_StretchBlt (c : HostCall) : bool :=
  match c with
  | call_StretchBlt _ _ _ _ _ _ => true
  | _ => false
  end.

(** The sizes a call creates or stretches with are [w] by [h], and what it
    stretches from is [sw] by [sh]. *)
Definition uses_geometry (w h sw sh : Z) (c : HostCall) : Prop :=
  match c with
  | call_CreateDIBSection _ w' h' bits => w' = w /\ h' = h /\ bits = 32
  | call_CreateBitmap w' h' => w' = w /\ h' = h
  | call_StretchBlt _ dw dh _ sw' sh' =>
      dw = w /\ dh = h /\ sw' = sw /\ sh' = sh
  | _ => True
  end.

(** The members as the default member initialisers leave them;
    [tracking_mode_] has none and holds whatever [mode0] stands for. *)
Definition ShellState_new (mode0 : MouseTrackingMode) : ShellState :=
  mkShell nullptr nullptr false false mode0.

(** The samples a run of events feeds to the detector, oldest first. *)
Fixpoint event_samples (events : list Event) (inst : Instance)
  : list (time_point * POINT) :=
  match events with
  | [] => []
  | e :: rest =>
      match event_sample e inst with
      | Some c => c :: event_samples rest inst
      | None => event_samples rest inst
      end
  end.

(** * Properties *)

(** ** Lists *)

Section Lastn.
Context {A : Type}.

Lemma lastn_all (n : nat) (l : list A) :
  (length l <= n)%nat -> lastn n l = l.
Proof.
  intros Hle. unfold lastn.
  replace (length l - n)%nat with 0%nat by lia. reflexivity.
Qed.

Lemma lastn_length (n : nat) (l : list A) :
  length (lastn n l) = Nat.min n (length l).
Proof. unfold lastn. rewrite length_skipn. lia. Qed.

Lemma lastn_app_long (n : nat) (a b : list A) :
  (n <= length b)%nat -> lastn n (a ++ b) = lastn n b.
Proof.
  intros Hle. unfold lastn. rewrite length_app, skipn_app.
  replace (length a + length b - n - length a)%nat
    with (length b - n)%nat by lia.
  rewrite skipn_all2 by lia. reflexivity.
Qed.

Lemma lastn_app_short (n : nat) (a b : list A) :
  (length b <= n)%nat -> lastn n (a ++ b) = lastn (n - length b) a ++ b.
Proof.
  intros Hle. unfold lastn. rewrite length_app, skipn_app.
  replace (length a + length b - n - length a)%nat with 0%nat by lia.
  replace (length a + length b - n)%nat
    with (length a - (n - length b))%nat by lia.
  reflexivity.
Qed.

Lemma lastn_lastn (n k : nat) (l : list A) :
  (k <= n)%nat -> lastn k (lastn n l) = lastn k l.
Proof.
  intros Hle. unfold lastn at 1 3. rewrite lastn_length.
  unfold lastn. rewrite skipn_skipn. f_equal. lia.
Qed.

(** Only the last [n] elements of the front part matter. *)
Lemma lastn_app_lastn (n : nat) (a b : list A) :
  lastn n (lastn n a ++ b) = lastn n (a ++ b).
Proof.
  destruct (Nat.le_gt_cases n (length b)) as [Hle | Hgt].
  - rewrite !lastn_app_long by exact Hle. reflexivity.
  - rewrite !lastn_app_short by lia.
    rewrite lastn_lastn by lia. reflexivity.
Qed.

Lemma tl_skipn (l : list A) : tl l = skipn 1 l.
Proof. destruct l; reflexivity. Qed.
End Lastn.

(** ** The history of the detector *)

Lemma push_history_lastn (h : list Movement) (mov : Movement) :
  (length h <= CursorConfig.kHistorySize)%nat ->
  push_history h mov = lastn CursorConfig.kHistorySize (h ++ [mov]).
Proof.
  intros Hle. unfold push_history. cbv zeta.
  assert (Hlen : length (h ++ [mov]) = S (length h))
    by (rewrite length_app; simpl; lia).
  destruct (Nat.ltb_spec CursorConfig.kHistorySize (length (h ++ [mov])))
    as [Hlt | Hge].
  - rewrite tl_skipn. unfold lastn. f_equal. lia.
  - symmetry. apply lastn_all. exact Hge.
Qed.

Lemma push_history_length (h : list Movement) (mov : Movement) :
  (length h <= CursorConfig.kHistorySize)%nat ->
  (length (push_history h mov) <= CursorConfig.kHistorySize)%nat.
Proof.
  intros Hle. rewrite push_history_lastn by exact Hle.
  rewrite lastn_length. lia.
Qed.

Lemma push_history_Forall (P : Movement -> Prop) (h : list Movement)
    (mov : Movement) :
  Forall P h -> P mov -> Forall P (push_history h mov).
Proof.
  intros Hh Hm. unfold push_history. cbv zeta.
  assert (Hall : Forall P (h ++ [mov]))
    by (apply Forall_app; split; [exact Hh | constructor; [exact Hm | constructor]]).
  destruct (_ <? _)%nat; [| exact Hall].
  destruct (h ++ [mov]) as [| m0 rest]; [constructor |].
  simpl. inversion Hall; assumption.
Qed.

(** The two outcomes of one call. *)
Lemma ShouldEnlargeCursor_rejects now pos d :
  duration_cast_ms (now - last_time_ d) <= 0 ->
  ShouldEnlargeCursor now pos d = (false, d).
Proof.
  intros Hdt. unfold ShouldEnlargeCursor. cbv zeta.
  destruct (Z.leb_spec (duration_cast_ms (now - last_time_ d)) 0); [reflexivity | lia].
Qed.

Lemma ShouldEnlargeCursor_accepts now pos d :
  0 < duration_cast_ms (now - last_time_ d) ->
  ShouldEnlargeCursor now pos d =
  let h := push_history (movement_history_ d)
             (mkMovement (int32 (pt_x pos - pt_x (last_pos_ d)))
                         (int32 (pt_y pos - pt_y (last_pos_ d)))
                         (duration_cast_ms (now - last_time_ d))) in
  (DetectShakePattern h, mkDetector pos now h).
Proof.
  intros Hdt. unfold ShouldEnlargeCursor. cbv zeta.
  destruct (Z.leb_spec (duration_cast_ms (now - last_time_ d)) 0); [lia | reflexivity].
Qed.

(** The history after a run is the last ten of what it held before followed
    by the accepted samples. *)
Lemma observe_all_history calls : forall d,
  (length (movement_history_ d) <= CursorConfig.kHistorySize)%nat ->
  movement_history_ (observe_all d calls) =
  lastn CursorConfig.kHistorySize (movement_history_ d ++ accepted d calls).
Proof.
  induction calls as [| c rest IH]; intros d Hlen.
  - simpl. rewrite app_nil_r. symmetry. apply lastn_all. exact Hlen.
  - unfold observe_all. simpl fold_left. fold (observe_all
      (snd (ShouldEnlargeCursor (fst c) (snd c) d)) rest).
    simpl accepted.
    destruct (Z.leb_spec (duration_cast_ms (fst c - last_time_ d)) 0) as [Hrej | Hacc].
    + rewrite ShouldEnlargeCursor_rejects by exact Hrej. simpl snd.
      apply IH. exact Hlen.
    + rewrite ShouldEnlargeCursor_accepts by exact Hacc. cbv zeta. simpl snd.
      rewrite IH by (simpl; apply push_history_length; exact Hlen).
      simpl movement_history_ at 1.
      rewrite push_history_lastn by exact Hlen.
      rewrite lastn_app_lastn, <- app_assoc. reflexivity.
Qed.

Lemma observe_all_length calls d :
  (length (movement_history_ d) <= CursorConfig.kHistorySize)%nat ->
  (length (movement_history_ (observe_all d calls))
   <= CursorConfig.kHistorySize)%nat.
Proof.
  intros Hlen. rewrite observe_all_history by exact Hlen.
  rewrite lastn_length. lia.
Qed.

Lemma observe_all_dt_positive calls : forall d,
  Forall (fun m => 0 < dt m) (movement_history_ d) ->
  Forall (fun m => 0 < dt m) (movement_history_ (observe_all d calls)).
Proof.
  induction calls as [| c rest IH]; intros d Hd; [exact Hd |].
  unfold observe_all. simpl fold_left.
  apply IH.
  destruct (Z.leb_spec (duration_cast_ms (fst c - last_time_ d)) 0) as [Hrej | Hacc].
  - rewrite ShouldEnlargeCursor_rejects by exact Hrej. exact Hd.
  - rewrite ShouldEnlargeCursor_accepts by exact Hacc. cbv zeta. simpl.
    apply push_history_Forall; [exact Hd | exact Hacc].
Qed.

Lemma observe_all_snoc d calls c :
  observe_all d (calls ++ [c]) =
  snd (ShouldEnlargeCursor (fst c) (snd c) (observe_all d calls)).
Proof. unfold observe_all. rewrite fold_left_app. reflexivity. Qed.

Lemma new_history_short p0 t0 :
  (length (movement_history_ (MouseMoveDetector_new p0 t0))
   <= CursorConfig.kHistorySize)%nat.
Proof. simpl. unfold CursorConfig.kHistorySize. lia. Qed.

(** ** The shake predicate *)

Lemma DetectShakePattern_true_iff (h : list Movement) :
  DetectShakePattern h = true <->
  (CursorConfig.kHistorySize <= length h)%nat /\ shake_predicate h.
Proof.
  unfold DetectShakePattern, shake_predicate. cbv zeta.
  unfold CursorConfig.kMaxTimeWindow, CursorConfig.kMinDirectionChanges,
    CursorConfig.kMinMovementSpeed.
  destruct (Nat.ltb_spec (length h) CursorConfig.kHistorySize) as [Hshort | Hfull].
  - split; [discriminate | intros [Hlen _]; lia].
  - destruct (Z.ltb_spec 500 (total_time (shake_loop h))) as [Hlate | Hintime].
    + split; [discriminate | intros [_ [Ht _]]; lia].
    + rewrite andb_true_iff, Z.leb_le. tauto.
Qed.

Lemma DetectShakePattern_short (h : list Movement) :
  (length h < CursorConfig.kHistorySize)%nat -> DetectShakePattern h = false.
Proof.
  intros Hshort. unfold DetectShakePattern.
  destruct (Nat.ltb_spec (length h) CursorConfig.kHistorySize); [reflexivity | lia].
Qed.

(** Scenario A: the tenth sample is answered [true]. *)
Example scenario_A_detects :
  fst (ShouldEnlargeCursor (ms 400) (mkPOINT 0 0)
         (observe_all detector_0 (firstn 9 scenario_A))) = true.
Proof. vm_compute. reflexivity. Qed.

(** Cold start: the ninth sample of Scenario A is answered [false]. *)
Example scenario_A_cold_start :
  fst (ShouldEnlargeCursor (ms 360) (mkPOINT 50 0)
         (observe_all detector_0 (firstn 8 scenario_A))) = false.
Proof. vm_compute. reflexivity. Qed.

(** Scenario B: ten samples of [dx = 5] every 100 ms are answered [false]. *)
Example scenario_B_rejects :
  DetectShakePattern (repeat (mkMovement 5 0 100) 10) = false.
Proof. vm_compute. reflexivity. Qed.

(** C1, as amended. For every detector reached from its constructor, a call
    answers [true] exactly when it is accepted (its elapsed time is positive)
    and the history it leaves holds ten samples over which the total time is
    at most 500 ms, the direction changes are at least 5 and the average
    speed is at least 800 px/s; and a call that brings the number of accepted
    samples to fewer than ten answers [false]. *)
Theorem ShouldEnlargeCursor_true_iff
    (p0 : POINT) (t0 : time_point) (calls : list (time_point * POINT))
    (now : time_point) (pos : POINT) :
  let d0 := MouseMoveDetector_new p0 t0 in
  let d := observe_all d0 calls in
  let r := ShouldEnlargeCursor now pos d in
  (fst r = true <->
     0 < duration_cast_ms (now - last_time_ d)
     /\ length (movement_history_ (snd r)) = 10%nat
     /\ shake_predicate (movement_history_ (snd r)))
  /\ ((length (accepted d0 (calls ++ [(now, pos)])) < 10)%nat ->
      fst r = false).
Proof.
  intros d0 d r.
  assert (Hd : (length (movement_history_ d) <= CursorConfig.kHistorySize)%nat)
    by (apply observe_all_length, new_history_short).
  split.
  - subst r.
    destruct (Z.leb_spec (duration_cast_ms (now - last_time_ d)) 0) as [Hrej | Hacc].
    + rewrite ShouldEnlargeCursor_rejects by exact Hrej. simpl.
      split; [discriminate | intros [Hpos _]; lia].
    + rewrite ShouldEnlargeCursor_accepts by exact Hacc. cbv zeta. simpl.
      rewrite DetectShakePattern_true_iff.
      pose proof (push_history_length (movement_history_ d)
        (mkMovement (int32 (pt_x pos - pt_x (last_pos_ d)))
                    (int32 (pt_y pos - pt_y (last_pos_ d)))
                    (duration_cast_ms (now - last_time_ d))) Hd) as Hle.
      unfold CursorConfig.kHistorySize in *.
      split.
      * intros [Hfull Hp]. repeat split; try apply Hp; lia.
      * intros [_ [Hfull Hp]]. split; [lia | exact Hp].
  - intros Hfew.
    assert (Hh : movement_history_ (snd r) =
                 lastn CursorConfig.kHistorySize
                       (accepted d0 (calls ++ [(now, pos)]))).
    { subst r d.
      pose proof (observe_all_snoc d0 calls (now, pos)) as Hsnoc.
      simpl in Hsnoc. rewrite <- Hsnoc.
      rewrite observe_all_history by apply new_history_short. reflexivity. }
    subst r.
    destruct (Z.leb_spec (duration_cast_ms (now - last_time_ d)) 0) as [Hrej | Hacc].
    + rewrite ShouldEnlargeCursor_rejects by exact Hrej. reflexivity.
    + rewrite ShouldEnlargeCursor_accepts in * by exact Hacc.
      cbv zeta in *. simpl in *.
      apply DetectShakePattern_short. rewrite Hh, lastn_length.
      unfold CursorConfig.kHistorySize. lia.
Qed.

(** C1, as stated, fails on a rejected call: after Scenario A the history
    holds ten samples that satisfy the predicate, and a call at the same
    timestamp is answered [false] and leaves that history in place. *)
Lemma ShouldEnlargeCursor_rejected_call_counterexample :
  let d := observe_all detector_0 scenario_A in
  let r := ShouldEnlargeCursor (ms 400) (mkPOINT 50 0) d in
  fst r = false
  /\ length (movement_history_ (snd r)) = 10%nat
  /\ shake_predicate (movement_history_ (snd r)).
Proof.
  cbv zeta. unfold shake_predicate.
  repeat split; vm_compute; solve [reflexivity | discriminate].
Qed.

(** C6. After any run of calls on a new detector, the history is the last
    ten accepted samples in the order they were accepted; its length is the
    smaller of ten and the number of accepted samples, and never above
    ten. *)
Theorem history_is_last_ten_accepted
    (p0 : POINT) (t0 : time_point) (calls : list (time_point * POINT)) :
  let d0 := MouseMoveDetector_new p0 t0 in
  let h := movement_history_ (observe_all d0 calls) in
  h = lastn 10 (accepted d0 calls)
  /\ length h = Nat.min 10 (length (accepted d0 calls))
  /\ (length h <= 10)%nat.
Proof.
  intros d0 h.
  assert (Hh : h = lastn 10 (accepted d0 calls)).
  { subst h. rewrite observe_all_history by apply new_history_short.
    reflexivity. }
  split; [exact Hh |].
  rewrite Hh, lastn_length. split; lia.
Qed.

(** C7. A call whose elapsed time is not positive answers [false] and
    returns the detector it was given: history, last position and last
    timestamp are what they were. *)
Theorem rejected_call_changes_nothing
    (now : time_point) (pos : POINT) (d : MouseMoveDetector) :
  duration_cast_ms (now - last_time_ d) <= 0 ->
  let r := ShouldEnlargeCursor now pos d in
  fst r = false
  /\ snd r = d
  /\ movement_history_ (snd r) = movement_history_ d
  /\ last_pos_ (snd r) = last_pos_ d
  /\ last_time_ (snd r) = last_time_ d.
Proof.
  intros Hdt r. subst r.
  rewrite ShouldEnlargeCursor_rejects by exact Hdt.
  simpl. repeat split.
Qed.

(** After Scenario A, a second call at the timestamp of the last one. *)
Lemma rejected_call_changes_nothing_witness :
  let d := observe_all detector_0 scenario_A in
  let r := ShouldEnlargeCursor (ms 400) (mkPOINT 50 0) d in
  fst r = false
  /\ snd r = d
  /\ movement_history_ (snd r) = movement_history_ d
  /\ last_pos_ (snd r) = last_pos_ d
  /\ last_time_ (snd r) = last_time_ d.
Proof.
  apply (rejected_call_changes_nothing (ms 400) (mkPOINT 50 0)
           (observe_all detector_0 scenario_A)).
  vm_compute. discriminate.
Defined.

(** C10. Every sample in the history of a detector reached from its
    constructor has a positive [dt], so its speed is the quotient
    [distance / dt * 1000]: the zero fallback of the guard is never taken. *)
Theorem stored_dt_positive
    (p0 : POINT) (t0 : time_point) (calls : list (time_point * POINT)) :
  Forall (fun m =>
            0 < dt m
            /\ speed m =
               PrimFloat.mul
                 (PrimFloat.div (distance m) (double_of_Z (dt m)))
                 1000%float)
         (movement_history_ (observe_all (MouseMoveDetector_new p0 t0) calls)).
Proof.
  eapply Forall_impl;
    [| apply observe_all_dt_positive; simpl; constructor].
  intros m Hm. cbv beta in Hm. split; [exact Hm |].
  unfold speed. destruct (Z.ltb_spec 0 (dt m)); [reflexivity | lia].
Qed.

(** ** Direction changes *)

Lemma is_change_zero_l (d : Z) : is_change 0 d = false.
Proof. reflexivity. Qed.

Lemma is_change_zero_r (d : Z) : is_change d 0 = false.
Proof. unfold is_change. simpl. rewrite andb_false_r. reflexivity. Qed.

Lemma adjacent_changes_one (a : Z) : adjacent_changes [a] = 0.
Proof. reflexivity. Qed.

Lemma adjacent_changes_cons2 (a b : Z) (l : list Z) :
  adjacent_changes (a :: b :: l) =
  (if is_change a b then 1 else 0) + adjacent_changes (b :: l).
Proof.
  unfold adjacent_changes, adjacent_pairs.
  cbn [tl combine filter fst snd].
  destruct (is_change a b); cbn [length]; lia.
Qed.

Lemma adjacent_changes_zero_head (l : list Z) :
  adjacent_changes (0 :: l) = adjacent_changes l.
Proof.
  destruct l as [| b l]; [reflexivity |].
  rewrite adjacent_changes_cons2, is_change_zero_l. lia.
Qed.

(** A zero direction cuts the window in two: nothing is counted across it. *)
Lemma adjacent_changes_split (post : list Z) : forall pre : list Z,
  adjacent_changes (pre ++ 0 :: post) =
  adjacent_changes pre + adjacent_changes post.
Proof.
  induction pre as [| a pre IH].
  - simpl app. rewrite adjacent_changes_zero_head. reflexivity.
  - destruct pre as [| b pre].
    + simpl app. rewrite adjacent_changes_cons2, is_change_zero_r.
      rewrite adjacent_changes_zero_head, adjacent_changes_one. lia.
    + change ((a :: b :: pre) ++ 0 :: post)
        with (a :: b :: (pre ++ 0 :: post)).
      rewrite !adjacent_changes_cons2.
      change (b :: pre ++ 0 :: post) with ((b :: pre) ++ 0 :: post).
      rewrite IH. lia.
Qed.

(** The loop, from any accumulator. *)
Lemma fold_shake_step_changes (h : list Movement) : forall a : ShakeAcc,
  direction_changes (fold_left shake_step h a) =
  direction_changes a
  + adjacent_changes (last_x_dir a :: x_dirs h)
  + adjacent_changes (last_y_dir a :: y_dirs h).
Proof.
  induction h as [| m h IH]; intros a.
  - simpl. rewrite !adjacent_changes_one. lia.
  - simpl fold_left. rewrite IH.
    unfold x_dirs, y_dirs. cbn [map].
    rewrite !adjacent_changes_cons2.
    unfold shake_step. cbn [direction_changes last_x_dir last_y_dir].
    destruct (is_change (last_x_dir a) (direction (dx m)));
      destruct (is_change (last_y_dir a) (direction (dy m))); lia.
Qed.

Lemma is_change_direction (a b : Z) :
  is_change (direction a) (direction b) = true <->
  (0 < a /\ b < 0) \/ (a < 0 /\ 0 < b).
Proof.
  unfold is_change, direction.
  destruct (Z.ltb_spec 0 a); destruct (Z.ltb_spec a 0);
    destruct (Z.ltb_spec 0 b); destruct (Z.ltb_spec b 0);
    simpl; split; intros; try discriminate; try reflexivity; lia.
Qed.

(** C2, as amended. The loop counts, on each axis, the pairs of neighbouring
    samples whose directions are both non-zero and of opposite sign. A sample
    that does not move on an axis is never counted, and it replaces the
    remembered direction with zero: the count of a window around such a
    sample is the count before it plus the count after it. *)
Theorem direction_changes_are_adjacent (h : list Movement) :
  direction_changes (shake_loop h) =
    adjacent_changes (x_dirs h) + adjacent_changes (y_dirs h)
  /\ (forall (pre post : list Movement) (y t : Z),
        adjacent_changes (x_dirs (pre ++ mkMovement 0 y t :: post)) =
        adjacent_changes (x_dirs pre) + adjacent_changes (x_dirs post))
  /\ (forall (pre post : list Movement) (x t : Z),
        adjacent_changes (y_dirs (pre ++ mkMovement x 0 t :: post)) =
        adjacent_changes (y_dirs pre) + adjacent_changes (y_dirs post))
  /\ (forall a b : Z,
        is_change (direction a) (direction b) = true <->
        (0 < a /\ b < 0) \/ (a < 0 /\ 0 < b)).
Proof.
  split; [| split; [| split]].
  - unfold shake_loop. rewrite fold_shake_step_changes.
    cbn [acc_init direction_changes last_x_dir last_y_dir].
    rewrite !adjacent_changes_zero_head. lia.
  - intros pre post y t. unfold x_dirs. rewrite map_app. cbn [map dx].
    change (direction 0) with 0. apply adjacent_changes_split.
  - intros pre post x t. unfold y_dirs. rewrite map_app. cbn [map dy].
    change (direction 0) with 0. apply adjacent_changes_split.
  - apply is_change_direction.
Qed.

(** C2, as stated, fails: in the window [+5, 0, -5] the reversal around the
    pause is not counted by the loop, while the rule of the specification
    counts it. *)
Lemma pause_hides_reversal_counterexample :
  direction_changes (shake_loop window_with_pause) = 0
  /\ spec_direction_changes window_with_pause = 1.
Proof. split; vm_compute; reflexivity. Qed.

(** ** The enlargement state *)

Lemma duration_cast_ms_ms (n : Z) : duration_cast_ms (ms n) = n.
Proof.
  unfold duration_cast_ms, ms, ticks_per_ms. apply Z.quot_mul. lia.
Qed.

Lemma duration_cast_ms_mono (a b : Z) :
  a <= b -> duration_cast_ms a <= duration_cast_ms b.
Proof.
  intros Hab. unfold duration_cast_ms, ticks_per_ms.
  apply Z.quot_le_mono; lia.
Qed.

(** The three ways [RestoreOriginalCursor] ends while enlarged. *)
Lemma RestoreOriginalCursor_accepted (host : Host) (s : CursorState) :
  is_enlarged_ s = true ->
  restore_accepted host s = true ->
  RestoreOriginalCursor host s =
  (mkCursorState (original_cursor_ s) (large_cursor_ s) false
                 (enlarge_start_time_ s),
   [call_CopyCursor (original_cursor_ s);
    call_SetSystemCursor (CopyCursor host (original_cursor_ s)) OCR_NORMAL]).
Proof.
  intros Hen Hok. unfold restore_accepted in Hok.
  apply andb_true_iff in Hok as [Hcopy Hset].
  apply negb_true_iff in Hcopy.
  unfold RestoreOriginalCursor. rewrite Hen. cbv zeta.
  rewrite Hcopy, Hset. reflexivity.
Qed.

Lemma RestoreOriginalCursor_declined (host : Host) (s : CursorState) :
  is_enlarged_ s = true ->
  restore_accepted host s = false ->
  fst (RestoreOriginalCursor host s) = s
  /\ (count_SetSystemCursor (snd (RestoreOriginalCursor host s)) <= 1)%nat
  /\ In (call_CopyCursor (original_cursor_ s))
        (snd (RestoreOriginalCursor host s)).
Proof.
  intros Hen Hno. unfold restore_accepted in Hno.
  unfold RestoreOriginalCursor. rewrite Hen. cbv zeta.
  destruct (is_null (CopyCursor host (original_cursor_ s))).
  - cbn [fst snd]. repeat split;
      [unfold count_SetSystemCursor; simpl; lia | left; reflexivity].
  - simpl in Hno. rewrite Hno. cbn [fst snd].
    repeat split;
      [unfold count_SetSystemCursor; simpl; lia | left; reflexivity].
Qed.

Lemma RestoreIfNeeded_after_dwell (host : Host) (now : time_point)
    (s : CursorState) :
  is_enlarged_ s = true ->
  500 < duration_cast_ms (now - enlarge_start_time_ s) ->
  RestoreIfNeeded host now s = RestoreOriginalCursor host s.
Proof.
  intros Hen Hlate. unfold RestoreIfNeeded. rewrite Hen. cbv zeta.
  unfold CursorConfig.kEnlargeDurationMs.
  destruct (Z.ltb_spec 500 (duration_cast_ms (now - enlarge_start_time_ s)));
    [reflexivity | lia].
Qed.

Lemma RestoreIfNeeded_within_dwell (host : Host) (now : time_point)
    (s : CursorState) :
  duration_cast_ms (now - enlarge_start_time_ s) <= 500 ->
  RestoreIfNeeded host now s = (s, []).
Proof.
  intros Hearly. unfold RestoreIfNeeded. cbv zeta.
  unfold CursorConfig.kEnlargeDurationMs.
  destruct (is_enlarged_ s); [| reflexivity].
  destruct (Z.ltb_spec 500 (duration_cast_ms (now - enlarge_start_time_ s)));
    [lia | reflexivity].
Qed.

(** C3, as amended. For a state enlarged since [T]: a tick whose elapsed
    whole milliseconds are at most 500 (so the tick at [T + 400 ms]) leaves
    the state as it is and makes no call; a tick whose elapsed whole
    milliseconds exceed 500 (so the tick at [T + 600 ms]) returns the state
    to normal with exactly one [SetSystemCursor] when the host hands out the
    copy and accepts it, and otherwise leaves the state enlarged since [T]
    with at most one [SetSystemCursor]. *)
Theorem RestoreIfNeeded_tick
    (host : Host) (now : time_point) (s : CursorState) :
  is_enlarged_ s = true ->
  let elapsed := duration_cast_ms (now - enlarge_start_time_ s) in
  let r := RestoreIfNeeded host now s in
  (elapsed <= 500 -> r = (s, []))
  /\ (500 < elapsed -> restore_accepted host s = true ->
      is_enlarged_ (fst r) = false
      /\ count_SetSystemCursor (snd r) = 1%nat)
  /\ (500 < elapsed -> restore_accepted host s = false ->
      fst r = s /\ (count_SetSystemCursor (snd r) <= 1)%nat)
  /\ (now = enlarge_start_time_ s + ms 400 -> r = (s, []))
  /\ (now = enlarge_start_time_ s + ms 600 ->
      restore_accepted host s = true ->
      is_enlarged_ (fst r) = false
      /\ count_SetSystemCursor (snd r) = 1%nat).
Proof.
  intros Hen elapsed r.
  assert (Hok : 500 < elapsed -> restore_accepted host s = true ->
                is_enlarged_ (fst r) = false
                /\ count_SetSystemCursor (snd r) = 1%nat).
  { intros Hlate Hacc. subst r elapsed.
    rewrite RestoreIfNeeded_after_dwell by assumption.
    rewrite RestoreOriginalCursor_accepted by assumption.
    split; reflexivity. }
  repeat split.
  - intros Hearly. apply RestoreIfNeeded_within_dwell. exact Hearly.
  - apply Hok; assumption.
  - apply Hok; assumption.
  - subst r elapsed. rewrite RestoreIfNeeded_after_dwell by assumption.
    apply RestoreOriginalCursor_declined; assumption.
  - subst r elapsed. rewrite RestoreIfNeeded_after_dwell by assumption.
    apply RestoreOriginalCursor_declined; assumption.
  - intros Hnow. apply RestoreIfNeeded_within_dwell.
    replace (now - enlarge_start_time_ s) with (ms 400) by lia.
    rewrite duration_cast_ms_ms. lia.
  - apply Hok; [| assumption]. subst elapsed.
    replace (now - enlarge_start_time_ s) with (ms 600) by lia.
    rewrite duration_cast_ms_ms. lia.
  - apply Hok; [| assumption]. subst elapsed.
    replace (now - enlarge_start_time_ s) with (ms 600) by lia.
    rewrite duration_cast_ms_ms. lia.
Qed.

(** Scenario C on a host that accepts: enlarged at 1000 ms, a tick at
    1600 ms. *)
Lemma RestoreIfNeeded_tick_witness :
  is_enlarged_
    (fst (RestoreIfNeeded host_ok (ms 1600) (enlarged_at (ms 1000)))) = false
  /\ count_SetSystemCursor
       (snd (RestoreIfNeeded host_ok (ms 1600) (enlarged_at (ms 1000))))
     = 1%nat.
Proof.
  apply (proj1 (proj2 (RestoreIfNeeded_tick host_ok (ms 1600)
                         (enlarged_at (ms 1000)) eq_refl))).
  - vm_compute. reflexivity.
  - reflexivity.
Defined.

(** Scenario C, the first tick: 400 ms after the enlargement nothing
    happens. *)
Example scenario_C_early_tick :
  RestoreIfNeeded host_ok (ms 1400) (enlarged_at (ms 1000))
  = (enlarged_at (ms 1000), []).
Proof. vm_compute. reflexivity. Qed.

(** C3, as stated, fails: 600 ms after the enlargement a tick on a host that
    declines [SetSystemCursor] leaves the state enlarged, and 500.5 ms after
    it a tick on a host that accepts everything makes no call at all, the
    elapsed time being counted in whole milliseconds. *)
Lemma tick_after_dwell_counterexample :
  ~ spec_tick_restores host_declines (ms 1600) (enlarged_at (ms 1000))
  /\ ~ spec_tick_restores host_ok (ms 1500 + 500000) (enlarged_at (ms 1000)).
Proof.
  split; intros Hspec.
  - assert (Hlate : 500 * ticks_per_ms
                    < ms 1600 - enlarge_start_time_ (enlarged_at (ms 1000)))
      by (vm_compute; reflexivity).
    destruct (Hspec Hlate) as [Hnormal _]. vm_compute in Hnormal.
    discriminate.
  - assert (Hlate : 500 * ticks_per_ms
                    < ms 1500 + 500000
                      - enlarge_start_time_ (enlarged_at (ms 1000)))
      by (vm_compute; reflexivity).
    destruct (Hspec Hlate) as [Hnormal _]. vm_compute in Hnormal.
    discriminate.
Qed.

(** C4. While the state is enlarged, [Enlarge] returns it unchanged, start
    time included, and makes no call; a mouse move that the detector
    classifies either way leaves the cursor state as it is and makes no
    call. *)
Theorem Enlarge_when_enlarged_is_noop
    (host : Host) (now now' : time_point) (pt : POINT)
    (s : CursorState) (d : MouseMoveDetector) :
  is_enlarged_ s = true ->
  Enlarge host now' s = (s, [])
  /\ cursor_state_ (fst (ProcessMouseMove host now now' pt (mkApp s d))) = s
  /\ snd (ProcessMouseMove host now now' pt (mkApp s d)) = [].
Proof.
  intros Hen.
  assert (HE : Enlarge host now' s = (s, []))
    by (unfold Enlarge; rewrite Hen; reflexivity).
  split; [exact HE |].
  unfold ProcessMouseMove. cbn [move_detector_ cursor_state_].
  destruct (ShouldEnlargeCursor now pt d) as [shake d'].
  destruct shake; [rewrite HE |]; split; reflexivity.
Qed.

(** Enlarged at 1000 ms; the eleventh sample of a shake arrives. *)
Lemma Enlarge_when_enlarged_is_noop_witness :
  Enlarge host_ok (ms 1200) (enlarged_at (ms 1000))
    = (enlarged_at (ms 1000), [])
  /\ cursor_state_
       (fst (ProcessMouseMove host_ok (ms 440) (ms 1200) (mkPOINT 50 0)
               (mkApp (enlarged_at (ms 1000))
                      (observe_all detector_0 scenario_A))))
     = enlarged_at (ms 1000)
  /\ snd (ProcessMouseMove host_ok (ms 440) (ms 1200) (mkPOINT 50 0)
            (mkApp (enlarged_at (ms 1000))
                   (observe_all detector_0 scenario_A)))
     = [].
Proof.
  apply (Enlarge_when_enlarged_is_noop host_ok (ms 440) (ms 1200)
           (mkPOINT 50 0) (enlarged_at (ms 1000))
           (observe_all detector_0 scenario_A)).
  reflexivity.
Defined.

(** C8. When the restore of a tick past the dwell is declined (the copy is
    refused or [SetSystemCursor] fails), the state is left enlarged with the
    same start time; at any later tick the elapsed time still exceeds the
    dwell and the restore is attempted again: the original is copied again,
    the copy, if any, is installed again, and a host that accepts it returns
    the state to normal with exactly one [SetSystemCursor]. *)
Theorem failed_restore_is_retried
    (host host' : Host) (now now' : time_point) (s : CursorState) :
  is_enlarged_ s = true ->
  500 < duration_cast_ms (now - enlarge_start_time_ s) ->
  restore_accepted host s = false ->
  now <= now' ->
  let s' := fst (RestoreIfNeeded host now s) in
  let r' := RestoreIfNeeded host' now' s' in
  s' = s
  /\ is_enlarged_ s' = true
  /\ 500 < duration_cast_ms (now' - enlarge_start_time_ s')
  /\ In (call_CopyCursor (original_cursor_ s)) (snd r')
  /\ (is_null (CopyCursor host' (original_cursor_ s)) = false ->
      In (call_SetSystemCursor (CopyCursor host' (original_cursor_ s))
                               OCR_NORMAL) (snd r'))
  /\ (restore_accepted host' s = true ->
      is_enlarged_ (fst r') = false
      /\ count_SetSystemCursor (snd r') = 1%nat).
Proof.
  intros Hen Hlate Hno Hmono s' r'.
  assert (Hs : s' = s).
  { subst s'. rewrite RestoreIfNeeded_after_dwell by assumption.
    apply RestoreOriginalCursor_declined; assumption. }
  assert (Hlate' : 500 < duration_cast_ms (now' - enlarge_start_time_ s)).
  { pose proof (duration_cast_ms_mono (now - enlarge_start_time_ s)
                  (now' - enlarge_start_time_ s)). lia. }
  subst r'. rewrite Hs.
  rewrite RestoreIfNeeded_after_dwell by assumption.
  split; [reflexivity |]. split; [exact Hen |]. split; [exact Hlate' |].
  unfold RestoreOriginalCursor. rewrite Hen. cbv zeta.
  unfold restore_accepted.
  destruct (is_null (CopyCursor host' (original_cursor_ s))).
  - simpl. split; [left; reflexivity |].
    split; intros; discriminate.
  - destruct (SetSystemCursor host' (CopyCursor host' (original_cursor_ s))
                OCR_NORMAL); simpl.
    + split; [left; reflexivity |].
      split; [intros _; right; left; reflexivity |].
      intros _. split; reflexivity.
    + split; [left; reflexivity |].
      split; [intros _; right; left; reflexivity |].
      intros; discriminate.
Qed.

(** Enlarged at 1000 ms; the tick at 1600 ms is declined, the tick at
    1700 ms is accepted. *)
Lemma failed_restore_is_retried_witness :
  let s' := fst (RestoreIfNeeded host_declines (ms 1600)
                   (enlarged_at (ms 1000))) in
  let r' := RestoreIfNeeded host_ok (ms 1700) s' in
  s' = enlarged_at (ms 1000)
  /\ is_enlarged_ s' = true
  /\ 500 < duration_cast_ms (ms 1700 - enlarge_start_time_ s')
  /\ In (call_CopyCursor (original_cursor_ (enlarged_at (ms 1000)))) (snd r')
  /\ (is_null (CopyCursor host_ok
                 (original_cursor_ (enlarged_at (ms 1000)))) = false ->
      In (call_SetSystemCursor
            (CopyCursor host_ok (original_cursor_ (enlarged_at (ms 1000))))
            OCR_NORMAL) (snd r'))
  /\ (restore_accepted host_ok (enlarged_at (ms 1000)) = true ->
      is_enlarged_ (fst r') = false
      /\ count_SetSystemCursor (snd r') = 1%nat).
Proof.
  apply (failed_restore_is_retried host_declines host_ok (ms 1600) (ms 1700)
           (enlarged_at (ms 1000))).
  - reflexivity.
  - vm_compute. reflexivity.
  - reflexivity.
  - vm_compute. discriminate.
Defined.

(** ** Scaling *)

(** Rounding and cutting differ by at most one, and only away from zero. *)
Lemma round_double_near_trunc_double (f : float) (t r : Z) :
  trunc_double f = Some t ->
  round_double f = Some r ->
  (0 <= t <= r /\ r <= t + 1) \/ (r <= t <= 0 /\ t - 1 <= r).
Proof.
  unfold trunc_double, round_double.
  destruct (Prim2SF f) as [sg | sg | | sg m e]; try discriminate.
  - intros Ht Hr. inversion Ht. inversion Hr. lia.
  - cbv zeta. intros Ht Hr.
    assert (Hmag : 0 <= Z.shiftl (Z.pos m) e
                   <= (if 0 <=? e then Z.pos m * 2 ^ e
                       else (2 * Z.pos m + 2 ^ (- e)) / 2 ^ (1 - e))
                   /\ (if 0 <=? e then Z.pos m * 2 ^ e
                       else (2 * Z.pos m + 2 ^ (- e)) / 2 ^ (1 - e))
                      <= Z.shiftl (Z.pos m) e + 1).
    { destruct (Z.leb_spec 0 e) as [Hpos | Hneg].
      - rewrite Z.shiftl_mul_pow2 by exact Hpos.
        assert (0 < 2 ^ e) by (apply Z.pow_pos_nonneg; lia). nia.
      - clear Ht Hr.
        assert (He : e = - (- e)) by lia.
        remember (- e) as k eqn:Hk. subst e. clear Hk.
        rewrite Z.shiftl_opp_r, Z.shiftr_div_pow2 by lia.
        replace (1 - - k) with (Z.succ k) by lia.
        rewrite Z.pow_succ_r by lia.
        set (P := 2 ^ k).
        assert (HP : 0 < P) by (apply Z.pow_pos_nonneg; lia).
        pose proof (Z.div_mod (Z.pos m) P ltac:(lia)) as Hdm.
        pose proof (Z.mod_pos_bound (Z.pos m) P HP) as Hmod.
        set (q := Z.pos m / P) in *.
        assert (Hq : 0 <= q) by (apply Z.div_pos; lia).
        repeat split.
        + exact Hq.
        + apply Z.div_le_lower_bound; [lia | nia].
        + assert ((2 * Z.pos m + P) / (2 * P) < q + 2); [| lia].
          apply Z.div_lt_upper_bound; [lia | nia]. }
    destruct sg;
      apply (f_equal (fun o => match o with Some z => z | None => 0 end)) in Ht, Hr;
      cbv beta iota in Ht, Hr; lia.
Qed.

Lemma scale_block_result (host : Host) (icon_info : ICONINFO) (bm : BITMAP)
    (f : float) (w h : Z) (screen_dc src_dc dst_dc : HDC) :
  let '(new_cursor, new_color, new_mask, t) :=
    CursorUtils.scale_block host icon_info bm f w h screen_dc src_dc dst_dc in
  new_cursor <> nullptr ->
  exists info,
    built_icon_info t = Some info
    /\ new_cursor = CreateIconIndirect host info
    /\ xHotspot info =
       static_cast_DWORD (PrimFloat.mul (double_of_Z (xHotspot icon_info)) f)
    /\ yHotspot info =
       static_cast_DWORD (PrimFloat.mul (double_of_Z (yHotspot icon_info)) f)
    /\ hbmColor info = new_color
    /\ hbmMask info = new_mask.
Proof.
  unfold CursorUtils.scale_block. cbv zeta.
  destruct (is_null (CreateDIBSection host w h));
    [intros Hnn; exfalso; apply Hnn; reflexivity |].
  destruct (is_null (CreateBitmap host w h));
    [intros Hnn; exfalso; apply Hnn; reflexivity |].
  intros _. eexists.
  split; [| repeat split].
  unfold when_set. destruct (is_null (hbmColor icon_info)); reflexivity.
Qed.

Lemma built_icon_info_app (a b : list HostCall) :
  built_icon_info (a ++ b) =
  match built_icon_info a with
  | Some info => Some info
  | None => built_icon_info b
  end.
Proof.
  induction a as [| c a IH]; [reflexivity |].
  destruct c; simpl; try exact IH. reflexivity.
Qed.

(** C5, as amended. Whenever [ScaleCursor] returns a cursor, that cursor
    is the one [CreateIconIndirect] made from a description whose hotspot is
    the source hotspot times the factor, converted to [DWORD], that is, cut
    down to its integer part and not rounded to the nearest integer. *)
Theorem ScaleCursor_hotspot
    (host : Host) (src : HCURSOR) (f : float) (icon_info : ICONINFO) :
  GetIconInfo host src = Some icon_info ->
  fst (CursorUtils.ScaleCursor host src f) <> nullptr ->
  exists info,
    built_icon_info (snd (CursorUtils.ScaleCursor host src f)) = Some info
    /\ fst (CursorUtils.ScaleCursor host src f) = CreateIconIndirect host info
    /\ xHotspot info =
       static_cast_DWORD (PrimFloat.mul (double_of_Z (xHotspot icon_info)) f)
    /\ yHotspot info =
       static_cast_DWORD (PrimFloat.mul (double_of_Z (yHotspot icon_info)) f).
Proof.
  intros Hinfo. unfold CursorUtils.ScaleCursor.
  destruct (is_null src || PrimFloat.leb f PrimFloat.zero);
    [intros Hnn; exfalso; apply Hnn; reflexivity |].
  rewrite Hinfo. cbv zeta.
  set (src_bitmap := if is_null (hbmColor icon_info)
                     then hbmMask icon_info else hbmColor icon_info).
  destruct (GetObject host src_bitmap) as [bm |];
    [| intros Hnn; exfalso; apply Hnn; reflexivity].
  destruct (is_null (GetDC host));
    [intros Hnn; exfalso; apply Hnn; reflexivity |].
  destruct (is_null (CreateCompatibleDC_src host)
            || is_null (CreateCompatibleDC_dst host));
    [intros Hnn; exfalso; apply Hnn; reflexivity |].
  pose proof (scale_block_result host icon_info bm f
    (static_cast_int (PrimFloat.mul (double_of_Z (bmWidth bm)) f))
    (static_cast_int (PrimFloat.mul (double_of_Z (bmHeight bm)) f))
    (GetDC host) (CreateCompatibleDC_src host) (CreateCompatibleDC_dst host))
    as Hblock.
  destruct (CursorUtils.scale_block _ _ _ _ _ _ _ _ _)
    as [[[new_cursor new_color] new_mask] t4].
  cbn [fst snd]. intros Hnn.
  destruct (Hblock Hnn) as [info [Hbuilt [Hcur [Hx [Hy _]]]]].
  exists info. repeat split; try assumption.
  rewrite built_icon_info_app. cbn [app built_icon_info].
  rewrite built_icon_info_app, Hbuilt. reflexivity.
Qed.

(** With the configured factor the arrow's hotspot (1, 1) becomes (3, 3). *)
Example CursorState_new_hotspot :
  option_map (fun info => (xHotspot info, yHotspot info))
             (built_icon_info (snd (CursorState_new host_ok)))
  = Some (3, 3).
Proof. vm_compute. reflexivity. Qed.

(** C5, as stated, fails: scaling a cursor with hotspot (1, 1) by 1.75
    succeeds and builds the image with hotspot (1, 1), where rounding
    1.75 gives (2, 2). *)
Lemma rounded_hotspot_counterexample :
  fst (CursorUtils.ScaleCursor host_ok 7 1.75%float) <> nullptr
  /\ option_map (fun info => (xHotspot info, yHotspot info))
       (built_icon_info (snd (CursorUtils.ScaleCursor host_ok 7 1.75%float)))
     = Some (1, 1)
  /\ spec_hotspot 1 1 1.75%float = Some (2, 2).
Proof.
  split; [| split]; vm_compute; solve [reflexivity | discriminate].
Qed.

(** The 32 by 32 arrow with hotspot (1, 1), scaled by 1.75. *)
Lemma ScaleCursor_hotspot_witness :
  exists info,
    built_icon_info (snd (CursorUtils.ScaleCursor host_ok 7 1.75%float))
      = Some info
    /\ fst (CursorUtils.ScaleCursor host_ok 7 1.75%float)
       = CreateIconIndirect host_ok info
    /\ xHotspot info =
       static_cast_DWORD (PrimFloat.mul (double_of_Z 1) 1.75%float)
    /\ yHotspot info =
       static_cast_DWORD (PrimFloat.mul (double_of_Z 1) 1.75%float).
Proof.
  apply (ScaleCursor_hotspot host_ok 7 1.75%float
           (mkICONINFO false 1 1 11 12)).
  - reflexivity.
  - vm_compute. discriminate.
Defined.

(** C9. With a null source cursor or a factor that is zero or negative,
    [ScaleCursor] returns [nullptr] before any call to the host: no bitmap
    and no cursor is created. *)
Theorem ScaleCursor_rejects_bad_arguments
    (host : Host) (src : HCURSOR) (f : float) :
  src = nullptr \/ PrimFloat.leb f PrimFloat.zero = true ->
  CursorUtils.ScaleCursor host src f = (nullptr, [])
  /\ built_icon_info (snd (CursorUtils.ScaleCursor host src f)) = None.
Proof.
  intros Hbad.
  assert (HS : CursorUtils.ScaleCursor host src f = (nullptr, [])).
  { unfold CursorUtils.ScaleCursor.
    destruct Hbad as [Hnull | Hneg].
    - subst src. reflexivity.
    - rewrite Hneg, orb_true_r. reflexivity. }
  rewrite HS. split; reflexivity.
Qed.

(** A factor of -3. *)
Lemma ScaleCursor_rejects_bad_arguments_witness :
  CursorUtils.ScaleCursor host_ok 7 (-3)%float = (nullptr, [])
  /\ built_icon_info (snd (CursorUtils.ScaleCursor host_ok 7 (-3)%float))
     = None.
Proof.
  apply (ScaleCursor_rejects_bad_arguments host_ok 7 (-3)%float).
  right. reflexivity.
Defined.


(** * Further properties of the detector *)

(** ** Symmetries of the classifier *)

Lemma direction_opp (v : Z) : direction (- v) = - direction v.
Proof.
  unfold direction.
  destruct (Z.ltb_spec 0 (- v)); destruct (Z.ltb_spec (- v) 0);
    destruct (Z.ltb_spec 0 v); destruct (Z.ltb_spec v 0); lia.
Qed.

Lemma is_change_opp (a b : Z) : is_change (- a) (- b) = is_change a b.
Proof.
  unfold is_change.
  replace (- a =? 0) with (a =? 0)
    by (destruct (Z.eqb_spec a 0); destruct (Z.eqb_spec (- a) 0); lia).
  replace (- b =? 0) with (b =? 0)
    by (destruct (Z.eqb_spec b 0); destruct (Z.eqb_spec (- b) 0); lia).
  replace (- a =? - b) with (a =? b)
    by (destruct (Z.eqb_spec a b); destruct (Z.eqb_spec (- a) (- b)); lia).
  reflexivity.
Qed.

Lemma distance_mirror_x (m : Movement) : distance (mirror_x m) = distance m.
Proof. unfold distance, mirror_x. cbn [dx dy]. rewrite Z.mul_opp_opp. reflexivity. Qed.

Lemma distance_mirror_y (m : Movement) : distance (mirror_y m) = distance m.
Proof. unfold distance, mirror_y. cbn [dx dy]. rewrite Z.mul_opp_opp. reflexivity. Qed.

Lemma distance_swap_axes (m : Movement) : distance (swap_axes m) = distance m.
Proof. unfold distance, swap_axes. cbn [dx dy]. rewrite Z.add_comm. reflexivity. Qed.

Lemma fold_shake_step_related (g : Movement -> Movement)
    (R : ShakeAcc -> ShakeAcc -> Prop) :
  (forall a a' m, R a a' -> R (shake_step a m) (shake_step a' (g m))) ->
  forall h a a',
    R a a' ->
    R (fold_left shake_step h a) (fold_left shake_step (map g h) a').
Proof.
  intros Hstep. induction h as [| m h IH]; intros a a' HR; [exact HR |].
  simpl. apply IH, Hstep, HR.
Qed.

Lemma DetectShakePattern_same_totals (g : Movement -> Movement)
    (h : list Movement) :
  same_totals (shake_loop h) (shake_loop (map g h)) ->
  DetectShakePattern (map g h) = DetectShakePattern h.
Proof.
  intros [Hc [Hs Ht]]. unfold DetectShakePattern, avg_speed.
  rewrite length_map. cbv zeta. rewrite Hc, Hs, Ht. reflexivity.
Qed.

Lemma shake_loop_mirror_x (h : list Movement) :
  same_totals (shake_loop h) (shake_loop (map mirror_x h)).
Proof.
  pose (R := fun a a' : ShakeAcc =>
               same_totals a a'
               /\ last_x_dir a' = - last_x_dir a
               /\ last_y_dir a' = last_y_dir a).
  assert (HR : R (shake_loop h) (shake_loop (map mirror_x h))).
  { unfold shake_loop. apply (fold_shake_step_related mirror_x R);
      [| repeat split].
    intros a a' m [[Hc [Hs Ht]] [Hx Hy]].
    unfold R, same_totals, shake_step. cbn [direction_changes total_speed
      total_time last_x_dir last_y_dir]. cbv zeta.
    unfold speed. rewrite distance_mirror_x.
    unfold mirror_x. cbn [dx dy dt].
    rewrite Hx, Hy, Hc, Hs, Ht, direction_opp, is_change_opp.
    repeat split. }
  exact (proj1 HR).
Qed.

Lemma shake_loop_mirror_y (h : list Movement) :
  same_totals (shake_loop h) (shake_loop (map mirror_y h)).
Proof.
  pose (R := fun a a' : ShakeAcc =>
               same_totals a a'
               /\ last_x_dir a' = last_x_dir a
               /\ last_y_dir a' = - last_y_dir a).
  assert (HR : R (shake_loop h) (shake_loop (map mirror_y h))).
  { unfold shake_loop. apply (fold_shake_step_related mirror_y R);
      [| repeat split].
    intros a a' m [[Hc [Hs Ht]] [Hx Hy]].
    unfold R, same_totals, shake_step. cbn [direction_changes total_speed
      total_time last_x_dir last_y_dir]. cbv zeta.
    unfold speed. rewrite distance_mirror_y.
    unfold mirror_y. cbn [dx dy dt].
    rewrite Hx, Hy, Hc, Hs, Ht, direction_opp, is_change_opp.
    repeat split. }
  exact (proj1 HR).
Qed.

Lemma shake_loop_swap_axes (h : list Movement) :
  same_totals (shake_loop h) (shake_loop (map swap_axes h)).
Proof.
  pose (R := fun a a' : ShakeAcc =>
               same_totals a a'
               /\ last_x_dir a' = last_y_dir a
               /\ last_y_dir a' = last_x_dir a).
  assert (HR : R (shake_loop h) (shake_loop (map swap_axes h))).
  { unfold shake_loop. apply (fold_shake_step_related swap_axes R);
      [| repeat split].
    intros a a' m [[Hc [Hs Ht]] [Hx Hy]].
    unfold R, same_totals, shake_step. cbn [direction_changes total_speed
      total_time last_x_dir last_y_dir]. cbv zeta.
    unfold speed. rewrite distance_swap_axes.
    unfold swap_axes. cbn [dx dy dt].
    rewrite Hx, Hy, Hc, Hs, Ht.
    repeat split.
    destruct (is_change (last_y_dir a) (direction (dy m)));
      destruct (is_change (last_x_dir a) (direction (dx m))); lia. }
  exact (proj1 HR).
Qed.

(** X1. The classifier does not tell left from right, up from down, or one
    axis from the other: a window and its mirror image on either axis, and
    the window with its axes exchanged, get the same answer. *)
Theorem DetectShakePattern_symmetric (h : list Movement) :
  DetectShakePattern (map mirror_x h) = DetectShakePattern h
  /\ DetectShakePattern (map mirror_y h) = DetectShakePattern h
  /\ DetectShakePattern (map swap_axes h) = DetectShakePattern h.
Proof.
  repeat split; apply DetectShakePattern_same_totals.
  - apply shake_loop_mirror_x.
  - apply shake_loop_mirror_y.
  - apply shake_loop_swap_axes.
Qed.

(** ** Windows that are never a shake *)

Lemma shake_loop_changes (h : list Movement) :
  direction_changes (shake_loop h) =
  adjacent_changes (x_dirs h) + adjacent_changes (y_dirs h).
Proof.
  unfold shake_loop. rewrite fold_shake_step_changes.
  cbn [acc_init direction_changes last_x_dir last_y_dir].
  rewrite !adjacent_changes_zero_head. lia.
Qed.

Lemma is_change_one_sided (s a b : Z) :
  a = 0 \/ a = s -> b = 0 \/ b = s -> is_change a b = false.
Proof.
  intros [Ha | Ha] [Hb | Hb]; subst.
  - apply is_change_zero_l.
  - apply is_change_zero_l.
  - apply is_change_zero_r.
  - unfold is_change. rewrite Z.eqb_refl. simpl. apply andb_false_r.
Qed.

Lemma adjacent_changes_one_sided (s : Z) (dirs : list Z) :
  Forall (fun d => d = 0 \/ d = s) dirs -> adjacent_changes dirs = 0.
Proof.
  induction dirs as [| a dirs IH]; intros Hall; [reflexivity |].
  destruct dirs as [| b dirs]; [reflexivity |].
  rewrite adjacent_changes_cons2.
  inversion Hall as [| ? ? Ha Hrest]; subst.
  inversion Hrest as [| ? ? Hb _]; subst.
  rewrite (is_change_one_sided s a b Ha Hb), IH by exact Hrest. reflexivity.
Qed.

Lemma one_sided_dirs (f : Movement -> Z) (h : list Movement) :
  Forall (fun m => 0 <= f m) h \/ Forall (fun m => f m <= 0) h ->
  exists s, Forall (fun d => d = 0 \/ d = s) (map (fun m => direction (f m)) h).
Proof.
  intros [Hpos | Hneg]; [exists 1 | exists (-1)];
    apply Forall_map; eapply Forall_impl; try eassumption;
    intros m Hm; cbv beta in *; unfold direction;
    destruct (Z.ltb_spec 0 (f m)); destruct (Z.ltb_spec (f m) 0); lia.
Qed.

(** X2. A window in which neither axis ever reverses (on each axis all
    displacements are >= 0, or all are <= 0) has no direction change and is
    never classified as a shake, whatever its speed and length. *)
Theorem straight_motion_is_no_shake (h : list Movement) :
  Forall (fun m => 0 <= dx m) h \/ Forall (fun m => dx m <= 0) h ->
  Forall (fun m => 0 <= dy m) h \/ Forall (fun m => dy m <= 0) h ->
  direction_changes (shake_loop h) = 0 /\ DetectShakePattern h = false.
Proof.
  intros Hx Hy.
  assert (Hc : direction_changes (shake_loop h) = 0).
  { rewrite shake_loop_changes.
    destruct (one_sided_dirs dx h Hx) as [sx Hsx].
    destruct (one_sided_dirs dy h Hy) as [sy Hsy].
    unfold x_dirs, y_dirs.
    rewrite (adjacent_changes_one_sided sx), (adjacent_changes_one_sided sy)
      by assumption.
    reflexivity. }
  split; [exact Hc |].
  unfold DetectShakePattern. cbv zeta. rewrite Hc.
  destruct (_ <? _)%nat; [reflexivity |].
  destruct (_ <? _); reflexivity.
Qed.

(** A fast sweep to the right and up: ten samples of 200 px in 10 ms. *)
Lemma straight_motion_is_no_shake_witness :
  direction_changes (shake_loop (repeat (mkMovement 200 200 10) 10)) = 0
  /\ DetectShakePattern (repeat (mkMovement 200 200 10) 10) = false.
Proof.
  apply (straight_motion_is_no_shake (repeat (mkMovement 200 200 10) 10));
    left; repeat constructor; cbn; lia.
Defined.

Lemma adjacent_changes_bounds (dirs : list Z) :
  0 <= adjacent_changes dirs <= Z.of_nat (length dirs - 1).
Proof.
  unfold adjacent_changes, adjacent_pairs.
  pose proof (filter_length_le (fun p : Z * Z => is_change (fst p) (snd p))
                (combine dirs (tl dirs))) as Hle.
  rewrite length_combine in Hle.
  assert (length (tl dirs) = (length dirs - 1)%nat)
    by (destruct dirs; simpl; lia).
  lia.
Qed.

(** X3. The counter of direction changes stays between zero and twice the
    number of neighbouring pairs of the window: at most 18 for the ten
    samples the detector keeps. *)
Theorem direction_changes_bounds (h : list Movement) :
  0 <= direction_changes (shake_loop h) <= 2 * Z.of_nat (length h - 1)
  /\ (length h = CursorConfig.kHistorySize ->
      direction_changes (shake_loop h) <= 18).
Proof.
  assert (Hb : 0 <= direction_changes (shake_loop h)
               <= 2 * Z.of_nat (length h - 1)).
  { rewrite shake_loop_changes.
    pose proof (adjacent_changes_bounds (x_dirs h)) as Hx.
    pose proof (adjacent_changes_bounds (y_dirs h)) as Hy.
    unfold x_dirs, y_dirs in *. rewrite length_map in *. lia. }
  split; [exact Hb |].
  intros Hlen. rewrite Hlen in Hb. unfold CursorConfig.kHistorySize in Hb.
  simpl in Hb. lia.
Qed.

(** ** Time *)

Lemma fold_shake_step_total_time (h : list Movement) : forall a : ShakeAcc,
  total_time (fold_left shake_step h a) = total_time a + sum_Z (map dt h).
Proof.
  induction h as [| m h IH]; intros a; simpl; [lia |].
  rewrite IH. unfold shake_step. cbn [total_time]. lia.
Qed.

Lemma sum_dt_slow (h : list Movement) :
  Forall (fun m => 50 < dt m) h ->
  51 * Z.of_nat (length h) <= sum_Z (map dt h).
Proof.
  induction 1 as [| m h Hm _ IH]; simpl; [lia |].
  cbv beta in Hm. lia.
Qed.

(** A window whose samples are all more than 50 ms long is no shake. *)
Lemma DetectShakePattern_slow (h : list Movement) :
  Forall (fun m => 50 < dt m) h -> DetectShakePattern h = false.
Proof.
  intros Hslow. unfold DetectShakePattern. cbv zeta.
  destruct (Nat.ltb_spec (length h) CursorConfig.kHistorySize) as [| Hfull];
    [reflexivity |].
  unfold shake_loop. rewrite fold_shake_step_total_time.
  pose proof (sum_dt_slow h Hslow) as Hsum.
  unfold CursorConfig.kHistorySize, CursorConfig.kMaxTimeWindow in *.
  cbn [acc_init total_time].
  destruct (Z.ltb_spec 500 (0 + sum_Z (map dt h))); [reflexivity | lia].
Qed.

Lemma duration_cast_ms_lower (n d : Z) :
  0 <= n -> ms n <= d -> n <= duration_cast_ms d.
Proof.
  intros Hn Hd. rewrite <- (duration_cast_ms_ms n).
  apply duration_cast_ms_mono. exact Hd.
Qed.

Lemma answers_slow (calls : list (time_point * POINT)) :
  forall d,
    Forall (fun m => 50 < dt m) (movement_history_ d) ->
    spaced_by (ms 51) (last_time_ d) calls ->
    Forall (fun b => b = false) (answers d calls).
Proof.
  induction calls as [| c rest IH]; intros d Hhist Hsp; [constructor |].
  destruct Hsp as [Hgap Hrest]. cbn [answers].
  assert (Hdt : 51 <= duration_cast_ms (fst c - last_time_ d))
    by (apply duration_cast_ms_lower; lia).
  rewrite ShouldEnlargeCursor_accepts by lia. cbv zeta. cbn [fst snd].
  assert (Hhist' : Forall (fun m => 50 < dt m)
            (push_history (movement_history_ d)
               (mkMovement (int32 (pt_x (snd c) - pt_x (last_pos_ d)))
                           (int32 (pt_y (snd c) - pt_y (last_pos_ d)))
                           (duration_cast_ms (fst c - last_time_ d)))))
    by (apply push_history_Forall; [exact Hhist | cbn; lia]).
  constructor.
  - apply DetectShakePattern_slow. exact Hhist'.
  - apply IH; [exact Hhist' | exact Hrest].
Qed.

(** X4. A detector whose calls come at least 51 ms apart never answers
    [true], whatever the mouse does: ten samples of 51 ms or more exceed the
    500 ms window. *)
Theorem slow_sampling_never_detects
    (p0 : POINT) (t0 : time_point) (calls : list (time_point * POINT)) :
  spaced_by (ms 51) t0 calls ->
  Forall (fun b => b = false) (answers (MouseMoveDetector_new p0 t0) calls).
Proof.
  intros Hsp. apply answers_slow; [constructor | exact Hsp].
Qed.

(** The shake of Scenario A, sampled every 60 ms. *)
Lemma slow_sampling_never_detects_witness :
  Forall (fun b => b = false)
    (answers (MouseMoveDetector_new (mkPOINT 0 0) 0)
       (map (fun k => (ms (60 * Z.of_nat k),
                       mkPOINT (if Nat.odd k then 50 else 0) 0))
            (seq 1 12))).
Proof.
  apply (slow_sampling_never_detects (mkPOINT 0 0) 0).
  cbn. repeat split; vm_compute; discriminate.
Defined.

(** ** What a run records *)

Lemma duration_cast_ms_bounds (d : Z) :
  0 < duration_cast_ms d ->
  duration_cast_ms d * ticks_per_ms <= d
  /\ d <= duration_cast_ms d * ticks_per_ms + (ticks_per_ms - 1).
Proof.
  unfold duration_cast_ms, ticks_per_ms. intros Hpos.
  assert (Hd : 0 <= d).
  { destruct (Z.le_gt_cases 0 d) as [| Hneg]; [assumption |].
    pose proof (Z.quot_le_mono d 0 1000000 ltac:(lia) ltac:(lia)) as Hq.
    rewrite Z.quot_0_l in Hq by lia. lia. }
  rewrite Z.quot_div_nonneg by lia.
  pose proof (Z.div_mod d 1000000 ltac:(lia)) as Hdm.
  pose proof (Z.mod_pos_bound d 1000000 ltac:(lia)) as Hmod.
  lia.
Qed.

(** X5. Whatever timestamps the calls carry, the detector's clock never
    goes back, and the milliseconds recorded in the accepted samples account
    for the time between the first and the last state: they never exceed
    it, and fall short of it by less than one millisecond per sample. *)
Theorem detector_clock_accounts
    (calls : list (time_point * POINT)) (d : MouseMoveDetector) :
  let d' := observe_all d calls in
  let acc := accepted d calls in
  last_time_ d <= last_time_ d'
  /\ sum_Z (map dt acc) * ticks_per_ms <= last_time_ d' - last_time_ d
  /\ last_time_ d' - last_time_ d
     <= sum_Z (map dt acc) * ticks_per_ms
        + Z.of_nat (length acc) * (ticks_per_ms - 1).
Proof.
  revert d. induction calls as [| c rest IH]; intros d.
  - cbn. lia.
  - cbv zeta. unfold observe_all. cbn [fold_left accepted].
    fold (observe_all (snd (ShouldEnlargeCursor (fst c) (snd c) d)) rest).
    destruct (Z.leb_spec (duration_cast_ms (fst c - last_time_ d)) 0)
      as [Hrej | Hacc].
    + rewrite ShouldEnlargeCursor_rejects by exact Hrej. cbn [snd].
      apply IH.
    + rewrite ShouldEnlargeCursor_accepts by exact Hacc. cbv zeta. cbn [snd].
      match goal with
      | |- context [observe_all ?d1 rest] => specialize (IH d1)
      end.
      cbv zeta in IH. cbn [last_time_] in IH.
      pose proof (duration_cast_ms_bounds _ Hacc) as Hb.
      cbn [map sum_Z fold_right length dt].
      fold (sum_Z (map dt (accepted
        {| last_pos_ := snd c; last_time_ := fst c;
           movement_history_ :=
             push_history (movement_history_ d)
               {| dx := int32 (pt_x (snd c) - pt_x (last_pos_ d));
                  dy := int32 (pt_y (snd c) - pt_y (last_pos_ d));
                  dt := duration_cast_ms (fst c - last_time_ d) |} |} rest))).
      unfold ticks_per_ms in *. lia.
Qed.

Lemma int32_exact (v : Z) : - 2 ^ 31 <= v < 2 ^ 31 -> int32 v = v.
Proof.
  intros Hv. unfold int32, wrap_signed.
  rewrite Z.mod_small by lia. lia.
Qed.

(** X6. While the pointer stays within 2^30 pixels of the origin, the
    displacements of the accepted samples add up, on each axis, to the
    distance between the position the detector started from and the one it
    holds at the end: calls that are rejected lose no movement. *)
Theorem accepted_displacements_add_up
    (calls : list (time_point * POINT)) (d : MouseMoveDetector) :
  on_screen (last_pos_ d) ->
  Forall (fun c => on_screen (snd c)) calls ->
  sum_Z (map dx (accepted d calls))
    = pt_x (last_pos_ (observe_all d calls)) - pt_x (last_pos_ d)
  /\ sum_Z (map dy (accepted d calls))
     = pt_y (last_pos_ (observe_all d calls)) - pt_y (last_pos_ d).
Proof.
  revert d. induction calls as [| c rest IH]; intros d Hd Hcalls.
  - cbn. lia.
  - inversion Hcalls as [| ? ? Hc Hrest]; subst.
    unfold observe_all. cbn [fold_left accepted].
    fold (observe_all (snd (ShouldEnlargeCursor (fst c) (snd c) d)) rest).
    destruct (Z.leb_spec (duration_cast_ms (fst c - last_time_ d)) 0)
      as [Hrej | Hacc].
    + rewrite ShouldEnlargeCursor_rejects by exact Hrej. cbn [snd].
      apply IH; assumption.
    + rewrite ShouldEnlargeCursor_accepts by exact Hacc. cbv zeta. cbn [snd].
      match goal with
      | |- context [observe_all ?d1 rest] =>
          specialize (IH d1 Hc Hrest); set (d1' := d1) in *
      end.
      cbn [map sum_Z fold_right dx dy].
      fold (sum_Z (map dx (accepted d1' rest))).
      fold (sum_Z (map dy (accepted d1' rest))).
      destruct IH as [IHx IHy]. rewrite IHx, IHy.
      subst d1'. cbn [last_pos_].
      destruct Hd as [Hdx Hdy]. destruct Hc as [Hcx Hcy].
      rewrite !int32_exact by lia. lia.
Qed.

(** Scenario A, with a repeated timestamp put in the middle. *)
Lemma accepted_displacements_add_up_witness :
  sum_Z (map dx (accepted detector_0
                   (firstn 5 scenario_A ++ [(ms 200, mkPOINT 7 9)]
                    ++ skipn 5 scenario_A)))
    = pt_x (last_pos_ (observe_all detector_0
                         (firstn 5 scenario_A ++ [(ms 200, mkPOINT 7 9)]
                          ++ skipn 5 scenario_A)))
      - pt_x (last_pos_ detector_0)
  /\ sum_Z (map dy (accepted detector_0
                      (firstn 5 scenario_A ++ [(ms 200, mkPOINT 7 9)]
                       ++ skipn 5 scenario_A)))
     = pt_y (last_pos_ (observe_all detector_0
                          (firstn 5 scenario_A ++ [(ms 200, mkPOINT 7 9)]
                           ++ skipn 5 scenario_A)))
       - pt_y (last_pos_ detector_0).
Proof.
  apply (accepted_displacements_add_up
           (firstn 5 scenario_A ++ [(ms 200, mkPOINT 7 9)]
            ++ skipn 5 scenario_A) detector_0).
  - unfold on_screen. cbn. lia.
  - apply Forall_forall. intros c Hin. vm_compute in Hin.
    unfold on_screen.
    repeat (destruct Hin as [Hin | Hin]; [subst c; cbn; lia |]).
    destruct Hin.
Defined.

Lemma ShouldEnlargeCursor_shift (cx cy ct : Z) (now : time_point)
    (pos : POINT) (d : MouseMoveDetector) :
  ShouldEnlargeCursor (now + ct) (translate cx cy pos)
                      (shift_detector cx cy ct d)
  = (fst (ShouldEnlargeCursor now pos d),
     shift_detector cx cy ct (snd (ShouldEnlargeCursor now pos d))).
Proof.
  unfold ShouldEnlargeCursor. cbv zeta.
  unfold shift_detector, translate.
  cbn [last_time_ last_pos_ movement_history_ pt_x pt_y].
  replace (now + ct - (last_time_ d + ct)) with (now - last_time_ d) by lia.
  replace (pt_x pos + cx - (pt_x (last_pos_ d) + cx))
    with (pt_x pos - pt_x (last_pos_ d)) by lia.
  replace (pt_y pos + cy - (pt_y (last_pos_ d) + cy))
    with (pt_y pos - pt_y (last_pos_ d)) by lia.
  destruct (duration_cast_ms (now - last_time_ d) <=? 0); reflexivity.
Qed.

(** X7. The detector depends on differences only: moving the origin of the
    screen and of the clock changes no answer of a run and leaves the same
    history. *)
Theorem detector_shift_invariant
    (cx cy ct : Z) (calls : list (time_point * POINT))
    (d : MouseMoveDetector) :
  answers (shift_detector cx cy ct d) (map (shift_call cx cy ct) calls)
    = answers d calls
  /\ observe_all (shift_detector cx cy ct d) (map (shift_call cx cy ct) calls)
     = shift_detector cx cy ct (observe_all d calls).
Proof.
  revert d. induction calls as [| c rest IH]; intros d; [split; reflexivity |].
  destruct (IH (snd (ShouldEnlargeCursor (fst c) (snd c) d))) as [IHa IHo].
  assert (Hstep :
    ShouldEnlargeCursor (fst (shift_call cx cy ct c))
                        (snd (shift_call cx cy ct c))
                        (shift_detector cx cy ct d)
    = (fst (ShouldEnlargeCursor (fst c) (snd c) d),
       shift_detector cx cy ct (snd (ShouldEnlargeCursor (fst c) (snd c) d))))
    by apply ShouldEnlargeCursor_shift.
  split.
  - cbn [map answers]. rewrite Hstep. cbn [fst snd]. f_equal. exact IHa.
  - unfold observe_all in *. cbn [map fold_left]. rewrite Hstep.
    cbn [fst snd]. exact IHo.
Qed.

(** * Further properties of the cursor state *)

Lemma Enlarge_enlarged (host : Host) (now : time_point) (s : CursorState) :
  is_enlarged_ s = true -> Enlarge host now s = (s, []).
Proof. intros Hen. unfold Enlarge. rewrite Hen. reflexivity. Qed.

Lemma ProcessMouseMove_enlarged (host : Host) (now now' : time_point)
    (pt : POINT) (app : ShakeToFindCursor) :
  is_enlarged_ (cursor_state_ app) = true ->
  cursor_state_ (fst (ProcessMouseMove host now now' pt app))
    = cursor_state_ app
  /\ snd (ProcessMouseMove host now now' pt app) = [].
Proof.
  intros Hen. unfold ProcessMouseMove.
  destruct (ShouldEnlargeCursor now pt (move_detector_ app)) as [shake d].
  destruct shake; [rewrite Enlarge_enlarged by exact Hen |]; split; reflexivity.
Qed.

(** X8. The copy that [Enlarge] or [RestoreIfNeeded] makes of a cursor is
    handed to [SetSystemCursor], and it is destroyed exactly when the system
    declines it: a declined copy is not leaked, an accepted one is left to
    the system. *)
Theorem declined_copy_is_destroyed
    (host : Host) (now : time_point) (s : CursorState)
    (src : HCURSOR) (tr : list HostCall) :
  tr = snd (Enlarge host now s) \/ tr = snd (RestoreIfNeeded host now s) ->
  In (call_CopyCursor src) tr ->
  is_null (CopyCursor host src) = false ->
  In (call_SetSystemCursor (CopyCursor host src) OCR_NORMAL) tr
  /\ (In (call_DestroyCursor (CopyCursor host src)) tr <->
      SetSystemCursor host (CopyCursor host src) OCR_NORMAL = false).
Proof.
  intros Htr Hin Hcopy.
  assert (Hshape :
    tr = [] \/
    exists src', tr =
      [call_CopyCursor src']
      ++ (if is_null (CopyCursor host src') then []
          else call_SetSystemCursor (CopyCursor host src') OCR_NORMAL
               :: (if SetSystemCursor host (CopyCursor host src') OCR_NORMAL
                   then []
                   else [call_DestroyCursor (CopyCursor host src')]))).
  { destruct Htr as [Htr | Htr]; subst tr.
    - unfold Enlarge. destruct (is_enlarged_ s); [left; reflexivity |].
      right. exists (large_cursor_ s). cbn [negb]. cbv zeta.
      destruct (is_null (CopyCursor host (large_cursor_ s))); [reflexivity |].
      destruct (SetSystemCursor host _ OCR_NORMAL); reflexivity.
    - unfold RestoreIfNeeded, RestoreOriginalCursor.
      destruct (is_enlarged_ s); [| left; reflexivity]. cbv zeta.
      destruct (_ <? _); [| left; reflexivity].
      right. exists (original_cursor_ s).
      destruct (is_null (CopyCursor host (original_cursor_ s)));
        [reflexivity |].
      destruct (SetSystemCursor host _ OCR_NORMAL); reflexivity. }
  destruct Hshape as [Hnil | [src' Hshape]]; [subst tr; destruct Hin |].
  subst tr.
  assert (Hsrc : src' = src).
  { cbn [app] in Hin. destruct Hin as [Heq | Hin]; [congruence |].
    destruct (is_null (CopyCursor host src')); [destruct Hin |].
    destruct Hin as [Heq | Hin]; [discriminate |].
    destruct (SetSystemCursor host _ OCR_NORMAL); [destruct Hin |].
    destruct Hin as [Heq | []]. discriminate. }
  subst src'. rewrite Hcopy. cbn [app].
  destruct (SetSystemCursor host (CopyCursor host src) OCR_NORMAL).
  - split; [right; left; reflexivity |].
    split; [| discriminate].
    intros [Heq | [Heq | []]]; discriminate.
  - split; [right; left; reflexivity |].
    split; [reflexivity |].
    intros _. right. right. left. reflexivity.
Qed.

(** A tick past the dwell on a host that declines. *)
Lemma declined_copy_is_destroyed_witness :
  In (call_SetSystemCursor (CopyCursor host_declines 101) OCR_NORMAL)
     (snd (RestoreIfNeeded host_declines (ms 1600) (enlarged_at (ms 1000))))
  /\ (In (call_DestroyCursor (CopyCursor host_declines 101))
         (snd (RestoreIfNeeded host_declines (ms 1600)
                 (enlarged_at (ms 1000)))) <->
      SetSystemCursor host_declines (CopyCursor host_declines 101) OCR_NORMAL
        = false).
Proof.
  apply (declined_copy_is_destroyed host_declines (ms 1600)
           (enlarged_at (ms 1000)) 101).
  - right. reflexivity.
  - vm_compute. left. reflexivity.
  - reflexivity.
Defined.

(** X9. From a normal state, an [Enlarge] that the host accepts followed,
    more than 500 whole milliseconds later, by a [RestoreIfNeeded] that the
    host accepts, brings the state back to normal with both handles as they
    were. The system cursor is set twice: first to a copy of the large
    cursor, then to a copy of the original. *)
Theorem enlarge_then_restore
    (host host' : Host) (now now' : time_point) (s : CursorState) :
  is_enlarged_ s = false ->
  is_null (CopyCursor host (large_cursor_ s)) = false ->
  SetSystemCursor host (CopyCursor host (large_cursor_ s)) OCR_NORMAL = true ->
  restore_accepted host' s = true ->
  500 < duration_cast_ms (now' - now) ->
  let r1 := Enlarge host now s in
  let r2 := RestoreIfNeeded host' now' (fst r1) in
  is_enlarged_ (fst r1) = true
  /\ enlarge_start_time_ (fst r1) = now
  /\ is_enlarged_ (fst r2) = false
  /\ original_cursor_ (fst r2) = original_cursor_ s
  /\ large_cursor_ (fst r2) = large_cursor_ s
  /\ snd r1 ++ snd r2 =
     [call_CopyCursor (large_cursor_ s);
      call_SetSystemCursor (CopyCursor host (large_cursor_ s)) OCR_NORMAL;
      call_CopyCursor (original_cursor_ s);
      call_SetSystemCursor (CopyCursor host' (original_cursor_ s)) OCR_NORMAL].
Proof.
  intros Hnormal Hcopy Hset Hacc Hlate r1 r2.
  assert (H1 : r1 = (mkCursorState (original_cursor_ s) (large_cursor_ s)
                                   true now,
                     [call_CopyCursor (large_cursor_ s);
                      call_SetSystemCursor (CopyCursor host (large_cursor_ s))
                                           OCR_NORMAL])).
  { subst r1. unfold Enlarge. rewrite Hnormal. cbn [negb]. cbv zeta.
    rewrite Hcopy, Hset. reflexivity. }
  subst r2. rewrite H1. cbn [fst snd].
  rewrite RestoreIfNeeded_after_dwell by first [reflexivity | exact Hlate].
  rewrite RestoreOriginalCursor_accepted by first [reflexivity | exact Hacc].
  cbn. repeat split.
Qed.

(** A normal state, enlarged at 1000 ms and restored at 1600 ms. *)
Lemma enlarge_then_restore_witness :
  let s := mkCursorState 101 50 false 0 in
  let r1 := Enlarge host_ok (ms 1000) s in
  let r2 := RestoreIfNeeded host_ok (ms 1600) (fst r1) in
  is_enlarged_ (fst r1) = true
  /\ enlarge_start_time_ (fst r1) = ms 1000
  /\ is_enlarged_ (fst r2) = false
  /\ original_cursor_ (fst r2) = original_cursor_ s
  /\ large_cursor_ (fst r2) = large_cursor_ s
  /\ snd r1 ++ snd r2 =
     [call_CopyCursor (large_cursor_ s);
      call_SetSystemCursor (CopyCursor host_ok (large_cursor_ s)) OCR_NORMAL;
      call_CopyCursor (original_cursor_ s);
      call_SetSystemCursor (CopyCursor host_ok (original_cursor_ s))
                           OCR_NORMAL].
Proof.
  apply (enlarge_then_restore host_ok host_ok (ms 1000) (ms 1600)
           (mkCursorState 101 50 false 0)); reflexivity.
Defined.

(** ** Events *)

Lemma filter_cursor_shell_calls (t : list ShellCall) :
  filter is_cursor_call (shell_calls t) = [].
Proof. induction t as [| c t IH]; [reflexivity | exact IH]. Qed.

Lemma Instance_ProcessMouseMove_enlarged (host : Host)
    (now now' : time_point) (pt : POINT) (inst : Instance) :
  is_enlarged_ (cursor_state_ (core inst)) = true ->
  cursor_state_ (core (fst (Instance_ProcessMouseMove host now now' pt inst)))
    = cursor_state_ (core inst)
  /\ shell (fst (Instance_ProcessMouseMove host now now' pt inst))
     = shell inst
  /\ snd (Instance_ProcessMouseMove host now now' pt inst) = [].
Proof.
  intros Hen. unfold Instance_ProcessMouseMove.
  destruct (ProcessMouseMove_enlarged host now now' pt (core inst) Hen)
    as [Hs Ht].
  destruct (ProcessMouseMove host now now' pt (core inst)) as [c t].
  cbn [fst snd] in *. subst t. cbn [core shell]. repeat split. exact Hs.
Qed.

Lemma deliver_quiet (e : Event) (inst : Instance) :
  is_enlarged_ (cursor_state_ (core inst)) = true ->
  (forall t, restore_clock e = Some t ->
     duration_cast_ms (t - enlarge_start_time_ (cursor_state_ (core inst)))
     <= 500) ->
  cursor_state_ (core (fst (deliver e inst))) = cursor_state_ (core inst)
  /\ filter is_cursor_call (snd (deliver e inst)) = [].
Proof.
  intros Hen Hclock.
  destruct e as [host sh now now' nCode wParam pt
                | host sh now now' now'' hwnd msg wParam lParam].
  - unfold deliver, MouseProc.
    destruct ((nCode =? HC_ACTION) && (wParam =? WM_MOUSEMOVE)).
    + destruct (Instance_ProcessMouseMove_enlarged host now now' pt inst Hen)
        as [Hs [_ Ht]].
      destruct (Instance_ProcessMouseMove host now now' pt inst) as [i t].
      cbn [fst snd] in *. subst t. split; [exact Hs | reflexivity].
    + split; reflexivity.
  - specialize (Hclock now'' eq_refl).
    unfold deliver, WindowProc.
    destruct (msg =? WM_TIMER).
    + destruct (wParam =? kTimerId); [| split; reflexivity].
      destruct (tracking_mode_ (shell inst)).
      * rewrite RestoreIfNeeded_within_dwell by exact Hclock.
        split; reflexivity.
      * destruct (Instance_ProcessMouseMove_enlarged host now now'
                    (GetCursorPos sh) inst Hen) as [Hs [_ Ht]].
        destruct (Instance_ProcessMouseMove host now now' (GetCursorPos sh)
                    inst) as [i t].
        cbn [fst snd] in *. subst t.
        rewrite Hs, RestoreIfNeeded_within_dwell by exact Hclock.
        split; reflexivity.
    + destruct (msg =? WM_DESTROY); [split; reflexivity |].
      destruct (msg =? kTrayIconMessage).
      * split; [reflexivity |]. cbn [snd].
        destruct (LOWORD lParam =? WM_RBUTTONUP);
          [apply filter_cursor_shell_calls | reflexivity].
      * destruct (msg =? WM_COMMAND); [| split; reflexivity].
        destruct (LOWORD wParam =? kMenuExitId); [| split; reflexivity].
        unfold Stop. cbn [fst snd core]. split; [reflexivity |].
        apply filter_cursor_shell_calls.
Qed.

(** X10. While the pointer is enlarged and no message reads the clock more
    than 500 whole milliseconds after the enlargement, nothing that reaches
    the program touches the system cursor: whatever hook callbacks and
    window messages arrive, in either tracking mode, the cursor state stays
    as it is and no cursor is copied, installed or destroyed. *)
Theorem enlarged_cursor_is_left_alone
    (events : list Event) (inst : Instance) :
  is_enlarged_ (cursor_state_ (core inst)) = true ->
  Forall (fun e => forall t, restore_clock e = Some t ->
            duration_cast_ms
              (t - enlarge_start_time_ (cursor_state_ (core inst))) <= 500)
         events ->
  cursor_state_ (core (fst (deliver_all events inst)))
    = cursor_state_ (core inst)
  /\ filter is_cursor_call (snd (deliver_all events inst)) = [].
Proof.
  revert inst. induction events as [| e rest IH]; intros inst Hen Hall.
  - split; reflexivity.
  - inversion Hall as [| ? ? He Hrest]; subst.
    destruct (deliver_quiet e inst Hen He) as [Hs Ht].
    cbn [deliver_all].
    destruct (deliver e inst) as [i t]. cbn [fst snd] in Hs, Ht.
    assert (Hen' : is_enlarged_ (cursor_state_ (core i)) = true)
      by (rewrite Hs; exact Hen).
    assert (Hrest' :
      Forall (fun e => forall t, restore_clock e = Some t ->
                duration_cast_ms
                  (t - enlarge_start_time_ (cursor_state_ (core i))) <= 500)
             rest)
      by (rewrite Hs; exact Hrest).
    destruct (IH i Hen' Hrest') as [Hs' Ht'].
    destruct (deliver_all rest i) as [i' t']. cbn [fst snd] in *.
    split; [congruence |].
    rewrite filter_app, Ht, Ht'. reflexivity.
Qed.

(** The events of [dwell_events] on the object enlarged at 1000 ms, in
    polling mode. *)
Lemma enlarged_cursor_is_left_alone_witness :
  cursor_state_ (core (fst (deliver_all dwell_events
                              (instance_enlarged kPolling))))
    = cursor_state_ (core (instance_enlarged kPolling))
  /\ filter is_cursor_call
       (snd (deliver_all dwell_events (instance_enlarged kPolling))) = [].
Proof.
  apply (enlarged_cursor_is_left_alone dwell_events
           (instance_enlarged kPolling)).
  - reflexivity.
  - unfold dwell_events.
    repeat constructor; intros t Ht; inversion Ht; subst;
      vm_compute; discriminate.
Defined.

Lemma Enlarge_cases (host : Host) (now : time_point) (s : CursorState) :
  fst (Enlarge host now s) = s
  \/ (is_enlarged_ s = false
      /\ fst (Enlarge host now s)
         = mkCursorState (original_cursor_ s) (large_cursor_ s) true now).
Proof.
  unfold Enlarge. destruct (is_enlarged_ s); [left; reflexivity |].
  cbn [negb]. cbv zeta.
  destruct (is_null _); [left; reflexivity |].
  destruct (SetSystemCursor host _ OCR_NORMAL);
    [right; split; reflexivity | left; reflexivity].
Qed.

Lemma RestoreIfNeeded_cases (host : Host) (now : time_point)
    (s : CursorState) :
  fst (RestoreIfNeeded host now s) = s
  \/ (is_enlarged_ s = true
      /\ 500 < duration_cast_ms (now - enlarge_start_time_ s)
      /\ fst (RestoreIfNeeded host now s)
         = mkCursorState (original_cursor_ s) (large_cursor_ s) false
                         (enlarge_start_time_ s)).
Proof.
  unfold RestoreIfNeeded, RestoreOriginalCursor.
  destruct (is_enlarged_ s); [| left; reflexivity]. cbv zeta.
  unfold CursorConfig.kEnlargeDurationMs.
  destruct (Z.ltb_spec 500 (duration_cast_ms (now - enlarge_start_time_ s)));
    [| left; reflexivity].
  destruct (is_null _); [left; reflexivity |].
  destruct (SetSystemCursor host _ OCR_NORMAL);
    [right; repeat split; assumption | left; reflexivity].
Qed.

Lemma ProcessMouseMove_cases (host : Host) (now now' : time_point)
    (pt : POINT) (app : ShakeToFindCursor) :
  cursor_state_ (fst (ProcessMouseMove host now now' pt app))
    = cursor_state_ app
  \/ (fst (ShouldEnlargeCursor now pt (move_detector_ app)) = true
      /\ is_enlarged_ (cursor_state_ app) = false
      /\ cursor_state_ (fst (ProcessMouseMove host now now' pt app))
         = mkCursorState (original_cursor_ (cursor_state_ app))
                         (large_cursor_ (cursor_state_ app)) true now').
Proof.
  unfold ProcessMouseMove.
  destruct (ShouldEnlargeCursor now pt (move_detector_ app)) as [shake d].
  destruct shake; [| left; reflexivity].
  destruct (Enlarge_cases host now' (cursor_state_ app)) as [Hsame | [Hn He]];
    destruct (Enlarge host now' (cursor_state_ app)) as [s t];
    cbn [fst snd cursor_state_] in *.
  - left. exact Hsame.
  - right. repeat split; assumption.
Qed.

(** X11. Whatever event reaches the object, the two cursor handles it owns
    stay the same; an enlarged state keeps its start time as long as it
    stays enlarged; it becomes normal only through a message that reads
    the clock more than 500 whole milliseconds after that start time; and
    a normal state becomes enlarged only through an event that feeds the
    detector a sample which the detector answers with [true]. *)
Theorem cursor_state_transitions (e : Event) (inst : Instance) :
  let s := cursor_state_ (core inst) in
  let s' := cursor_state_ (core (fst (deliver e inst))) in
  original_cursor_ s' = original_cursor_ s
  /\ large_cursor_ s' = large_cursor_ s
  /\ (is_enlarged_ s = true -> is_enlarged_ s' = true ->
      enlarge_start_time_ s' = enlarge_start_time_ s)
  /\ (is_enlarged_ s = true -> is_enlarged_ s' = false ->
      exists t, restore_clock e = Some t
                /\ 500 < duration_cast_ms (t - enlarge_start_time_ s))
  /\ (is_enlarged_ s = false -> is_enlarged_ s' = true ->
      exists t pt, event_sample e inst = Some (t, pt)
                   /\ fst (ShouldEnlargeCursor t pt
                             (move_detector_ (core inst))) = true).
Proof.
  cbv zeta.
  destruct e as [host sh now now' nCode wParam pt
                | host sh now now' now'' hwnd msg wParam lParam].
  - unfold deliver, MouseProc, event_sample.
    destruct ((nCode =? HC_ACTION) && (wParam =? WM_MOUSEMOVE)).
    + unfold Instance_ProcessMouseMove.
      destruct (ProcessMouseMove_cases host now now' pt (core inst))
        as [Hsame | [Hshake [Hn He]]];
        destruct (ProcessMouseMove host now now' pt (core inst)) as [c t];
        cbn [fst snd core] in *.
      * rewrite Hsame. repeat split; try reflexivity; intros; congruence.
      * rewrite He. cbn. repeat split; try congruence.
        intros _ _. exists now, pt. split; [reflexivity | exact Hshake].
    + cbn [fst]. repeat split; try reflexivity; intros; congruence.
  - unfold deliver, WindowProc, event_sample, restore_clock.
    destruct (msg =? WM_TIMER);
      [| destruct (msg =? WM_DESTROY);
         [| destruct (msg =? kTrayIconMessage);
            [| destruct (msg =? WM_COMMAND);
               [destruct (LOWORD wParam =? kMenuExitId) |]]];
         cbn; repeat split; try reflexivity; intros; congruence].
    destruct (wParam =? kTimerId);
      [| cbn; repeat split; try reflexivity; intros; congruence].
    cbn [andb].
    destruct (tracking_mode_ (shell inst)).
    + destruct (RestoreIfNeeded_cases host now'' (cursor_state_ (core inst)))
        as [Hsame | [Hen [Hlate Hr]]];
        destruct (RestoreIfNeeded host now'' (cursor_state_ (core inst)))
          as [s t]; cbn [fst snd core cursor_state_] in *; subst s.
      * repeat split; try reflexivity; intros; congruence.
      * cbn. repeat split; try congruence.
        intros _ _. exists now''. split; [reflexivity | exact Hlate].
    + unfold Instance_ProcessMouseMove.
      destruct (ProcessMouseMove_cases host now now' (GetCursorPos sh)
                  (core inst)) as [Hsame | [Hshake [Hn He]]];
        destruct (ProcessMouseMove host now now' (GetCursorPos sh)
                    (core inst)) as [c tc];
        cbn [fst snd core shell] in *.
      * rewrite <- Hsame.
        destruct (RestoreIfNeeded_cases host now'' (cursor_state_ c))
          as [Hsame' | [Hen [Hlate Hr]]];
          destruct (RestoreIfNeeded host now'' (cursor_state_ c)) as [s t];
          cbn [fst snd core cursor_state_] in *; subst s.
        -- repeat split; try reflexivity; intros; congruence.
        -- cbn. repeat split; try congruence.
           intros _ _. exists now''. split; [reflexivity | exact Hlate].
      * rewrite He.
        destruct (RestoreIfNeeded_cases host now''
                    (mkCursorState
                       (original_cursor_ (cursor_state_ (core inst)))
                       (large_cursor_ (cursor_state_ (core inst))) true now'))
          as [Hsame' | [Hen [Hlate Hr]]];
          destruct (RestoreIfNeeded host now'' _) as [s t];
          cbn [fst snd core cursor_state_] in *; subst s.
        -- cbn. repeat split; try congruence.
           intros _ _. exists now, (GetCursorPos sh).
           split; [reflexivity | exact Hshake].
        -- cbn. repeat split; congruence.
Qed.

(** * Further properties of the scaling *)

Ltac scale_cases host src f :=
  unfold CursorUtils.ScaleCursor, CursorUtils.scale_block;
  destruct (is_null src || PrimFloat.leb f PrimFloat.zero) eqn:Hargs;
  [| let info := fresh "info" in
     destruct (GetIconInfo host src) as [info |] eqn:Hinfo;
     [| idtac];
     cbv zeta;
     try (destruct (is_null (hbmColor info)) eqn:Hcolor;
          destruct (is_null (hbmMask info)) eqn:Hmask;
          let bm := fresh "bm" in
          match goal with
          | |- context [GetObject host ?b] =>
              destruct (GetObject host b) as [bm |] eqn:Hobj
          end;
          [destruct (is_null (GetDC host)) eqn:Hdc;
           [| destruct (is_null (CreateCompatibleDC_src host)) eqn:Hsrc;
              destruct (is_null (CreateCompatibleDC_dst host)) eqn:Hdst;
              cbn [orb];
              try (match goal with
                   | |- context [CreateDIBSection host ?w ?h] =>
                       destruct (is_null (CreateDIBSection host w h)) eqn:Hnc;
                       [| destruct (is_null (CreateBitmap host w h)) eqn:Hnm]
                   end)]
          |])];
  unfold when_set;
  repeat match goal with
         | H : is_null ?x = _ |- context [is_null ?x] => rewrite H
         end;
  change (is_null nullptr) with true;
  cbn [fst snd app].

(** X12. [ScaleCursor] returns a cursor only if [CreateIconIndirect] was
    called, and it calls it only once both new bitmaps exist: the
    description it passes is a cursor (not an icon) with a non-null colour
    bitmap and a non-null mask, both created in this call. *)
Theorem ScaleCursor_never_half_built
    (host : Host) (src : HCURSOR) (f : float) :
  let r := CursorUtils.ScaleCursor host src f in
  (built_icon_info (snd r) = None -> fst r = nullptr)
  /\ (forall info,
        built_icon_info (snd r) = Some info ->
        fIcon info = false
        /\ is_null (hbmColor info) = false
        /\ is_null (hbmMask info) = false
        /\ (exists dc w h,
              In (call_CreateDIBSection dc w h 32) (snd r)
              /\ In (call_CreateBitmap w h) (snd r)
              /\ hbmColor info = CreateDIBSection host w h
              /\ hbmMask info = CreateBitmap host w h)
        /\ fst r = CreateIconIndirect host info).
Proof.
  cbv zeta. scale_cases host src f;
    (split; [intros Hnone; try reflexivity; try discriminate
            | intros i Hsome; try discriminate]).
  all: inversion Hsome; subst i; cbn [fIcon hbmColor hbmMask].
  all: repeat split; try assumption.
  all: eexists _, _, _; repeat split; cbn; auto 30.
Qed.

Ltac find_in_trace :=
  cbn; solve [repeat (first [left; reflexivity | right])].

Ltac split_in H :=
  cbn in H;
  repeat (destruct H as [H | H];
          [first [discriminate H | injection H as ?; subst] |]);
  try contradiction.

(** X13. Every device context and bitmap that [ScaleCursor] obtains during
    a call is given back before it returns, on every path: the screen DC is
    released, the two memory DCs and the two new bitmaps are deleted, and so
    are the bitmaps that [GetIconInfo] handed out. *)
Theorem ScaleCursor_releases_what_it_acquires
    (host : Host) (src : HCURSOR) (f : float) :
  let tr := snd (CursorUtils.ScaleCursor host src f) in
  (In call_GetDC tr -> is_null (GetDC host) = false ->
   In (call_ReleaseDC (GetDC host)) tr)
  /\ (In (call_CreateCompatibleDC (GetDC host)) tr ->
      (is_null (CreateCompatibleDC_src host) = false ->
       In (call_DeleteDC (CreateCompatibleDC_src host)) tr)
      /\ (is_null (CreateCompatibleDC_dst host) = false ->
          In (call_DeleteDC (CreateCompatibleDC_dst host)) tr))
  /\ (forall dc w h bits,
        In (call_CreateDIBSection dc w h bits) tr ->
        is_null (CreateDIBSection host w h) = false ->
        In (call_DeleteObject (CreateDIBSection host w h)) tr)
  /\ (forall w h,
        In (call_CreateBitmap w h) tr ->
        is_null (CreateBitmap host w h) = false ->
        In (call_DeleteObject (CreateBitmap host w h)) tr)
  /\ (forall info,
        GetIconInfo host src = Some info ->
        In (call_GetIconInfo src) tr ->
        (is_null (hbmMask info) = false ->
         In (call_DeleteObject (hbmMask info)) tr)
        /\ (is_null (hbmColor info) = false ->
            In (call_DeleteObject (hbmColor info)) tr)).
Proof.
  cbv zeta. scale_cases host src f.
  all: repeat match goal with
              | |- _ /\ _ => split
              | |- forall _, _ => intro
              end.
  all: try match goal with
           | H : Some ?i = Some ?j |- _ =>
               assert (j = i) by congruence; subst j; clear H
           end.
  all: try congruence.
  all: try find_in_trace.
  all: match goal with
       | H : In _ _ |- _ => split_in H
       end.
  all: try congruence.
  all: try find_in_trace.
Qed.

(** X14. All the sizes of one call agree: the colour bitmap and the mask are
    created with the same width and height, the source size times the
    factor cut to integers, and every stretch goes from the whole source to
    the whole target. When a cursor is returned, a source with a colour
    bitmap was stretched twice (colour and mask) and a mask-only source
    once. *)
Theorem ScaleCursor_one_geometry
    (host : Host) (src : HCURSOR) (f : float) (info : ICONINFO)
    (bm : BITMAP) :
  GetIconInfo host src = Some info ->
  GetObject host (if is_null (hbmColor info)
                  then hbmMask info else hbmColor info) = Some bm ->
  let r := CursorUtils.ScaleCursor host src f in
  Forall (uses_geometry
            (static_cast_int (PrimFloat.mul (double_of_Z (bmWidth bm)) f))
            (static_cast_int (PrimFloat.mul (double_of_Z (bmHeight bm)) f))
            (bmWidth bm) (bmHeight bm))
         (snd r)
  /\ (fst r <> nullptr ->
      length (filter is_StretchBlt (snd r))
      = if is_null (hbmColor info) then 1%nat else 2%nat).
Proof.
  intros Hinfo Hobj. cbv zeta.
  unfold CursorUtils.ScaleCursor, CursorUtils.scale_block.
  destruct (is_null src || PrimFloat.leb f PrimFloat.zero);
    [split; [constructor | intros Hnn; exfalso; apply Hnn; reflexivity] |].
  rewrite Hinfo. cbv zeta. rewrite Hobj.
  unfold when_set.
  destruct (is_null (GetDC host));
    [| destruct (is_null (CreateCompatibleDC_src host));
       destruct (is_null (CreateCompatibleDC_dst host)); cbn [orb];
       try (destruct (is_null (CreateDIBSection host _ _)) eqn:Hnc;
            [| destruct (is_null (CreateBitmap host _ _)) eqn:Hnm])].
  all: repeat match goal with
              | H : is_null ?x = _ |- context [is_null ?x] => rewrite H
              end.
  all: change (is_null nullptr) with true.
  all: destruct (is_null (hbmColor info)); destruct (is_null (hbmMask info)).
  all: cbn [fst snd app].
  all: split;
    [repeat constructor
    | intros Hnn; try (exfalso; apply Hnn; reflexivity); reflexivity].
Qed.

(** The arrow of [host_ok], scaled by 1.75 to 56 by 56. *)
Lemma ScaleCursor_one_geometry_witness :
  Forall (uses_geometry 56 56 32 32)
         (snd (CursorUtils.ScaleCursor host_ok 7 1.75%float))
  /\ (fst (CursorUtils.ScaleCursor host_ok 7 1.75%float) <> nullptr ->
      length (filter is_StretchBlt
                (snd (CursorUtils.ScaleCursor host_ok 7 1.75%float)))
      = 2%nat).
Proof.
  apply (ScaleCursor_one_geometry host_ok 7 1.75%float
           (mkICONINFO false 1 1 11 12) (mkBITMAP 32 32));
    reflexivity.
Defined.


(** A factor that is not a number passes the argument check. *)
Example ScaleCursor_accepts_nan :
  fst (CursorUtils.ScaleCursor host_ok 7 PrimFloat.nan) <> nullptr
  /\ option_map (fun i => (xHotspot i, yHotspot i))
       (built_icon_info (snd (CursorUtils.ScaleCursor host_ok 7 PrimFloat.nan)))
     = Some (0, 0).
Proof. split; vm_compute; [discriminate | reflexivity]. Qed.

(** X16. The constructor of the cursor state gives a state exactly when
    the arrow can be copied and scaled; the state is then normal and holds
    two non-null handles, the copy and the cursor scaled by 3. When the copy
    fails nothing is scaled, and when the scaling fails the exception is
    the one for the large cursor. *)
Theorem CursorState_new_outcomes (host : Host) :
  let original := CopyCursor host (LoadCursor host IDC_ARROW) in
  let large :=
    fst (CursorUtils.ScaleCursor host original CursorConfig.kScaleFactor) in
  let r := CursorState_new host in
  (forall s, fst r = inr s ->
     s = mkCursorState original large false 0
     /\ is_null original = false /\ is_null large = false)
  /\ (fst r = inl Failed_to_backup_original_cursor <->
      is_null original = true)
  /\ (fst r = inl Failed_to_create_large_cursor <->
      is_null original = false /\ is_null large = true)
  /\ (is_null original = true ->
      snd r = [call_LoadCursor IDC_ARROW;
               call_CopyCursor (LoadCursor host IDC_ARROW)]).
Proof.
  cbv zeta. unfold CursorState_new.
  destruct (is_null (CopyCursor host (LoadCursor host IDC_ARROW))) eqn:Ho.
  - cbn [fst snd]. repeat split; try discriminate; try reflexivity.
    intros [Hfalse _]. discriminate.
  - destruct (CursorUtils.ScaleCursor host _ CursorConfig.kScaleFactor)
      as [large t1].
    cbn [fst]. destruct (is_null large) eqn:Hl; cbn [fst snd].
    + repeat split; try discriminate; try reflexivity.
    + repeat split; try discriminate; try reflexivity; try congruence.
      intros [_ Hfalse]. discriminate.
Qed.

(** * Further properties of the window and the tray icon *)

(** X17. [Initialize] returns [true] exactly when the window class, the
    window, the timer, the mouse hook (asked for in hook mode only) and the
    tray icon are all obtained; the timer then ticks every 10 ms in polling
    mode and every 100 ms in hook mode. When it throws after the window was
    created, it has destroyed the window, and killed the timer if the timer
    had been started; the tray flag is left unset. *)
Theorem Initialize_outcomes
    (sh : ShellHost) (mode : MouseTrackingMode) (st : ShellState) :
  let res := fst (fst (Initialize sh mode st)) in
  let st' := snd (fst (Initialize sh mode st)) in
  let tr := snd (Initialize sh mode st) in
  let hwnd := CreateWindowW sh in
  (res = inr true <->
     RegisterClassExW sh = true
     /\ is_null hwnd = false
     /\ SetTimer sh = true
     /\ (mode = kHook -> is_null (SetWindowsHookEx sh) = false)
     /\ Shell_NotifyIconW_add sh = true)
  /\ (res = inr true ->
      hwnd_ st' = hwnd
      /\ tray_icon_added_ st' = true
      /\ tracking_mode_ st' = mode
      /\ mouse_hook_ st' = match mode with
                           | kHook => SetWindowsHookEx sh
                           | kPolling => mouse_hook_ st
                           end
      /\ In (call_SetTimer hwnd kTimerId
               match mode with kPolling => 10 | kHook => 100 end) tr)
  /\ (forall err, res = inl err ->
      tray_icon_added_ st' = tray_icon_added_ st
      /\ (In call_CreateWindowW tr -> is_null hwnd = false ->
          In (call_DestroyWindow hwnd) tr)
      /\ (forall id interval,
            In (call_SetTimer hwnd id interval) tr -> SetTimer sh = true ->
            In (call_KillTimer hwnd id) tr))
  /\ (mode = kPolling -> ~ In call_SetWindowsHookEx tr).
Proof.
  cbv zeta. unfold Initialize. cbv zeta.
  destruct (RegisterClassExW sh) eqn:Hreg; cbn [negb];
    [destruct (is_null (CreateWindowW sh)) eqn:Hwnd;
     [| destruct (SetTimer sh) eqn:Htimer; cbn [negb];
        [destruct mode;
         [destruct (is_null (SetWindowsHookEx sh)) eqn:Hhook |];
         try (destruct (Shell_NotifyIconW_add sh) eqn:Htray; cbn [negb]) |]] |].
  all: cbn [fst snd hwnd_ tray_icon_added_ tracking_mode_ mouse_hook_ app].
  all: repeat match goal with
              | |- _ /\ _ => split
              | |- _ <-> _ => split
              | |- forall _, _ => intro
              | |- ~ _ => intro
              end.
  all: try discriminate.
  all: try reflexivity.
  all: try congruence.
  all: try find_in_trace.
  all: try match goal with
           | H : _ /\ _ |- _ =>
               decompose [and] H; clear H; try congruence
           end.
  all: try match goal with
           | H : ?m = kHook -> _ |- _ =>
               specialize (H eq_refl); congruence
           end.
  all: match goal with
       | H : In _ _ |- _ => split_in H
       end.
  all: try congruence.
  all: try find_in_trace.
Qed.

Lemma RemoveTrayIcon_once (st : ShellState) :
  snd (RemoveTrayIcon (fst (RemoveTrayIcon st))) = [].
Proof.
  unfold RemoveTrayIcon.
  destruct (tray_icon_added_ st && negb (is_null (hwnd_ st))) eqn:Hc;
    cbn [fst snd tray_icon_added_ andb]; [reflexivity |].
  rewrite Hc. reflexivity.
Qed.

(** X18. After an [Initialize] that succeeded on a newly constructed
    object, destroying the object gives back everything [Initialize] had
    obtained, each once and in this order: the tray icon is deleted, the
    hook (hook mode only) is removed, the timer is killed, the window is
    destroyed and the console handler is withdrawn; then the system
    cursors are reset, whether or not the pointer was enlarged, and the two
    owned cursors are destroyed. A second [RemoveTrayIcon] does nothing. *)
Theorem Instance_delete_after_Initialize
    (sh sh' : ShellHost) (mode mode0 : MouseTrackingMode)
    (obj : ShakeToFindCursor) :
  let r := Initialize sh mode (ShellState_new mode0) in
  let hwnd := CreateWindowW sh in
  let s := cursor_state_ obj in
  fst (fst r) = inr true ->
  is_null (original_cursor_ s) = false ->
  is_null (large_cursor_ s) = false ->
  snd (Instance_delete sh' (mkInstance obj (snd (fst r)))) =
    shell_calls
      ([call_Shell_NotifyIcon NIM_DELETE hwnd kTrayIconId]
       ++ match mode with
          | kHook => [call_UnhookWindowsHookEx (SetWindowsHookEx sh)]
          | kPolling => []
          end
       ++ [call_KillTimer hwnd kTimerId; call_DestroyWindow hwnd;
           call_SetConsoleCtrlHandler false])
    ++ [shell_call call_SystemParametersInfo_SETCURSORS;
        cursor_call (call_DestroyCursor (original_cursor_ s));
        cursor_call (call_DestroyCursor (large_cursor_ s))]
  /\ (SystemParametersInfo_SETCURSORS sh' = true ->
      is_enlarged_
        (cursor_state_
           (core (fst (Instance_delete sh' (mkInstance obj (snd (fst r)))))))
      = false)
  /\ snd (RemoveTrayIcon
            (shell (fst (Instance_delete sh'
                           (mkInstance obj (snd (fst r))))))) = [].
Proof.
  cbv zeta. unfold Initialize, ShellState_new. cbv zeta.
  destruct (RegisterClassExW sh); cbn [negb];
    [| intros H; discriminate H].
  destruct (is_null (CreateWindowW sh)) eqn:Hwnd; [intros H; discriminate H |].
  destruct (SetTimer sh); cbn [negb]; [| intros H; discriminate H].
  destruct mode.
  - destruct (is_null (SetWindowsHookEx sh)) eqn:Hhook;
      [intros H; discriminate H |].
    destruct (Shell_NotifyIconW_add sh); cbn [negb];
      [| intros H; discriminate H].
    intros _ Ho Hl.
    unfold Instance_delete, ShakeToFindCursor_delete, RemoveTrayIcon,
      CursorState_delete, when_set.
    cbn [fst snd shell core cursor_state_ tray_icon_added_ hwnd_ mouse_hook_
         running_ tracking_mode_ andb].
    rewrite Hwnd. cbn [negb fst snd hwnd_ mouse_hook_ tray_icon_added_].
    rewrite Hhook, Hwnd.
    destruct (SystemParametersInfo_SETCURSORS sh');
      cbn [original_cursor_ large_cursor_]; rewrite Ho, Hl;
      cbn [fst snd shell core cursor_state_ is_enlarged_ tray_icon_added_
           andb app map shell_calls cursor_calls];
      repeat split; try reflexivity; intros H; discriminate H.
  - destruct (Shell_NotifyIconW_add sh); cbn [negb];
      [| intros H; discriminate H].
    intros _ Ho Hl.
    unfold Instance_delete, ShakeToFindCursor_delete, RemoveTrayIcon,
      CursorState_delete, when_set.
    cbn [fst snd shell core cursor_state_ tray_icon_added_ hwnd_ mouse_hook_
         running_ tracking_mode_ andb].
    rewrite Hwnd. cbn [negb fst snd hwnd_ mouse_hook_ tray_icon_added_].
    change (is_null nullptr) with true. rewrite Hwnd.
    destruct (SystemParametersInfo_SETCURSORS sh');
      cbn [original_cursor_ large_cursor_]; rewrite Ho, Hl;
      cbn [fst snd shell core cursor_state_ is_enlarged_ tray_icon_added_
           andb app map shell_calls cursor_calls];
      repeat split; try reflexivity; intros H; discriminate H.
Qed.

(** The object enlarged at 1000 ms, set up in hook mode on [shell_ok]. *)
Lemma Instance_delete_after_Initialize_witness :
  let r := Initialize shell_ok kHook (ShellState_new kPolling) in
  let app := core (instance_enlarged kHook) in
  snd (Instance_delete shell_ok (mkInstance app (snd (fst r)))) =
    shell_calls
      ([call_Shell_NotifyIcon NIM_DELETE 77 kTrayIconId]
       ++ [call_UnhookWindowsHookEx 88]
       ++ [call_KillTimer 77 kTimerId; call_DestroyWindow 77;
           call_SetConsoleCtrlHandler false])
    ++ [shell_call call_SystemParametersInfo_SETCURSORS;
        cursor_call (call_DestroyCursor 101);
        cursor_call (call_DestroyCursor 50)]
  /\ (SystemParametersInfo_SETCURSORS shell_ok = true ->
      is_enlarged_
        (cursor_state_
           (core (fst (Instance_delete shell_ok
                         (mkInstance app (snd (fst r))))))) = false)
  /\ snd (RemoveTrayIcon
            (shell (fst (Instance_delete shell_ok
                           (mkInstance app (snd (fst r))))))) = [].
Proof.
  apply (Instance_delete_after_Initialize shell_ok shell_ok kHook kPolling
           (core (instance_enlarged kHook))); reflexivity.
Defined.

(** ** The detector under events *)

Lemma ProcessMouseMove_detector (host : Host) (now now' : time_point)
    (pt : POINT) (a : ShakeToFindCursor) :
  move_detector_ (fst (ProcessMouseMove host now now' pt a))
  = snd (ShouldEnlargeCursor now pt (move_detector_ a)).
Proof.
  unfold ProcessMouseMove.
  destruct (ShouldEnlargeCursor now pt (move_detector_ a)) as [shake d].
  destruct shake; [destruct (Enlarge host now' (cursor_state_ a)) |];
    reflexivity.
Qed.

Lemma deliver_detector (e : Event) (inst : Instance) :
  move_detector_ (core (fst (deliver e inst)))
  = match event_sample e inst with
    | Some c =>
        snd (ShouldEnlargeCursor (fst c) (snd c) (move_detector_ (core inst)))
    | None => move_detector_ (core inst)
    end
  /\ tracking_mode_ (shell (fst (deliver e inst)))
     = tracking_mode_ (shell inst).
Proof.
  destruct e as [host sh now now' nCode wParam pt
                | host sh now now' now'' hwnd msg wParam lParam].
  - unfold deliver, MouseProc, event_sample.
    destruct ((nCode =? HC_ACTION) && (wParam =? WM_MOUSEMOVE));
      [| split; reflexivity].
    unfold Instance_ProcessMouseMove.
    pose proof (ProcessMouseMove_detector host now now' pt (core inst)) as Hd.
    destruct (ProcessMouseMove host now now' pt (core inst)) as [c t].
    cbn [fst snd core shell] in *. split; [exact Hd | reflexivity].
  - unfold deliver, WindowProc, event_sample.
    destruct (msg =? WM_TIMER);
      [| destruct (msg =? WM_DESTROY);
         [| destruct (msg =? kTrayIconMessage);
            [| destruct (msg =? WM_COMMAND);
               [destruct (LOWORD wParam =? kMenuExitId) |]]];
         split; reflexivity].
    destruct (wParam =? kTimerId); [| split; reflexivity].
    cbn [andb].
    destruct (tracking_mode_ (shell inst)) eqn:Hmode.
    + destruct (RestoreIfNeeded host now'' (cursor_state_ (core inst))).
      cbn [fst snd core shell move_detector_]. split; [reflexivity | exact Hmode].
    + unfold Instance_ProcessMouseMove.
      pose proof (ProcessMouseMove_detector host now now' (GetCursorPos sh)
                    (core inst)) as Hd.
      destruct (ProcessMouseMove host now now' (GetCursorPos sh) (core inst))
        as [c t].
      destruct (RestoreIfNeeded host now'' (cursor_state_ (core (mkInstance c (shell inst))))).
      cbn [fst snd core shell move_detector_] in *.
      split; [exact Hd | exact Hmode].
Qed.

Lemma event_samples_mode (events : list Event) (inst inst' : Instance) :
  tracking_mode_ (shell inst') = tracking_mode_ (shell inst) ->
  event_samples events inst' = event_samples events inst.
Proof.
  intros Hmode. induction events as [| e rest IH]; [reflexivity |].
  cbn [event_samples]. rewrite IH.
  replace (event_sample e inst') with (event_sample e inst);
    [reflexivity |].
  destruct e; unfold event_sample; try rewrite Hmode; reflexivity.
Qed.

(** X19. The detector is fed by the events alone: after any run of hook
    callbacks and window messages it is in the state that the samples of
    those events (mouse moves of the hook, and the polled position of each
    timer tick in polling mode) lead to, whatever the cursor state was and
    whatever the host answered; the tracking mode does not change. *)
Theorem detector_follows_the_events
    (events : list Event) (inst : Instance) :
  move_detector_ (core (fst (deliver_all events inst)))
  = observe_all (move_detector_ (core inst)) (event_samples events inst)
  /\ tracking_mode_ (shell (fst (deliver_all events inst)))
     = tracking_mode_ (shell inst).
Proof.
  revert inst. induction events as [| e rest IH]; intros inst.
  - split; reflexivity.
  - cbn [deliver_all event_samples].
    destruct (deliver_detector e inst) as [Hd Hm].
    destruct (deliver e inst) as [i t]. cbn [fst] in Hd, Hm.
    destruct (IH i) as [IHd IHm].
    destruct (deliver_all rest i) as [i' t']. cbn [fst] in *.
    rewrite (event_samples_mode rest inst i Hm) in IHd.
    split; [| congruence].
    rewrite IHd, Hd.
    destruct (event_sample e inst) as [c |]; reflexivity.
Qed.
